(** * Three-phase sensor dashboard: a shallow embedding of [main.py]

    The dashboard reads three-phase sensor readings into a pandas
    dataframe, restricts it to the signal types chosen in a dropdown,
    optionally drops 3-sigma outliers and draws the columns with plotly.

    The embedding follows [main.py] function by function.  Python
    exceptions are values of [exn] carried by the [result] monad;
    pandas and plotly objects are records holding exactly the fields the
    program reads or writes.  The numerical kernels of pandas
    ([Series.mean], [Series.std], [Series.min], [Series.max]) and its
    date parsers are library code, not code of this program: they enter
    as an interface ([Numeric]) or as section variables, and a binary64
    instance is provided to run the program on concrete frames.

    Labels and codes are ASCII strings, one character per byte.  The
    second copy of the program, [src/main.py], has the same text for
    every function embedded here (its callback reads the module-level
    frame [df] instead of [DF]). *)

From Stdlib Require Import List ZArith String Ascii Bool Lia PeanoNat.
From Stdlib Require Import Numbers.DecimalString.
From Stdlib Require Import Floats.PrimFloat Numbers.Cyclic.Int63.Uint63.
From Stdlib Require Import QArith.
Import ListNotations.
Close Scope Q_scope.

Set Implicit Arguments.
Local Open Scope string_scope.
Local Open Scope list_scope.

(** ** Exceptions and the result monad *)

(** One constructor per raising site that the program can reach. *)
Inductive exn : Type :=
| KeyError (key : string)        (* dict lookup or column label not found *)
| IndexError                     (* string index out of range *)
| IntValueError (lit : string)   (* int(lit): invalid literal *)
| NotInList (x : string)         (* list.index(x): x is not in list *)
| SubplotRows (rows : nat)       (* make_subplots: rows must be an int > 0 *)
| SubplotSpacing (rows : nat)    (* make_subplots: vertical spacing out of range *)
| GridRange (row : nat)          (* add_trace: the (row, col) pair is out of range *)
| UnboundLocal (name : string)   (* local variable read before assignment *)
| NotASeries (label : string)    (* df[label] with a repeated label is a frame;
                                    the Series operation applied next raises *)
| LibraryError (what : string).  (* an exception raised inside a pandas parser *)

Inductive result (A : Type) : Type :=
| Ok (a : A)
| Error (e : exn).

Arguments Ok {A} a.
Arguments Error {A} e.

Definition bind {A B : Type} (r : result A) (k : A -> result B) : result B :=
  match r with
  | Ok a => k a
  | Error e => Error e
  end.

Notation "x <- e ;; k" := (bind e (fun x => k))
  (at level 61, e at next level, right associativity).
Notation "' p <- e ;; k" := (bind e (fun p => k))
  (at level 61, p pattern, e at next level, right associativity).

Definition is_ok {A : Type} (r : result A) : bool :=
  match r with Ok _ => true | Error _ => false end.

(** [mapM f l] runs [f] over [l] left to right and stops at the first
    exception, as a Python loop or [Series.apply] does. *)
Fixpoint mapM {A B : Type} (f : A -> result B) (l : list A) : result (list B) :=
  match l with
  | [] => Ok []
  | a :: t => b <- f a ;; bs <- mapM f t ;; Ok (b :: bs)
  end.

(** ** Python built-ins used by the program *)

(** [s[k]] on a [str]: a negative index counts from the end, an index
    outside [-len(s) .. len(s)-1] raises [IndexError]; the result is a
    string of length one. *)
Definition str_getitem (s : string) (k : Z) : result string :=
  let n := Z.of_nat (String.length s) in
  let k' := if (k <? 0)%Z then (k + n)%Z else k in
  if ((k' <? 0) || (n <=? k'))%Z then Error IndexError
  else match String.get (Z.to_nat k') s with
       | Some c => Ok (String c EmptyString)
       | None => Error IndexError
       end.

(** [x in l] for a list of strings. *)
Definition py_in (x : string) (l : list string) : bool :=
  existsb (String.eqb x) l.

(** [l.index(x)]: the first position holding [x]. *)
Fixpoint list_index (x : string) (l : list string) : result nat :=
  match l with
  | [] => Error (NotInList x)
  | y :: t => if String.eqb y x then Ok 0%nat
              else k <- list_index x t ;; Ok (S k)
  end.

(** [int(c)] on a one-character string over the ASCII digits. *)
Definition py_int (c : string) : result nat :=
  match c with
  | String a EmptyString =>
      let n := nat_of_ascii a in
      if ((48 <=? n) && (n <=? 57))%nat then Ok (n - 48)%nat
      else Error (IntValueError c)
  | _ => Error (IntValueError c)
  end.

(** [str(n)] for a non-negative int, as an f-string renders it. *)
Definition py_str (n : nat) : string :=
  NilZero.string_of_uint (Nat.to_uint n).

(** A [dict] literal is an association list in insertion order;
    [d[k]] raises [KeyError] on a missing key. *)
Fixpoint dict_get {A : Type} (d : list (string * A)) (k : string) : result A :=
  match d with
  | [] => Error (KeyError k)
  | (k', v) :: t => if String.eqb k' k then Ok v else dict_get t k
  end.

Fixpoint nat_dict_get {A : Type} (d : list (nat * A)) (k : nat) : result A :=
  match d with
  | [] => Error (KeyError (py_str k))
  | (k', v) :: t => if Nat.eqb k' k then Ok v else nat_dict_get t k
  end.

(** ** pandas: series and frames *)

(** A series pairs each index label with a value, in row order. *)
Definition Series (I A : Type) : Type := list (I * A).

Definition ser_index {I A : Type} (s : Series I A) : list I := map fst s.
Definition ser_values {I A : Type} (s : Series I A) : list A := map snd s.

(** A frame is a row index and named columns in column order.  Column
    labels may repeat, as pandas allows. *)
Record DataFrame (I A : Type) : Type := mkDF {
  df_index : list I;
  df_columns : list (string * list A)
}.

Definition df_names {I A : Type} (df : DataFrame I A) : list string :=
  map fst (df_columns df).

(** Every column has one cell per row. *)
Definition df_wf {I A : Type} (df : DataFrame I A) : Prop :=
  Forall (fun c => List.length (snd c) = List.length (df_index df)) (df_columns df).

Definition has_label {A : Type} (l : string) (c : string * A) : bool :=
  String.eqb (fst c) l.

(** The cells stored under [label].  A missing label raises [KeyError]; a
    repeated label selects a frame instead of a series, and the Series
    operations the program applies to it raise before anything is drawn
    or returned: the embedding raises at the lookup. *)
Definition df_column {I A : Type} (df : DataFrame I A) (label : string)
  : result (list A) :=
  match filter (has_label label) (df_columns df) with
  | [] => Error (KeyError label)
  | [(_, data)] => Ok data
  | _ => Error (NotASeries label)
  end.

(** [df[label]]: the column as a series over the frame's index. *)
Definition df_getitem {I A : Type} (df : DataFrame I A) (label : string)
  : result (Series I A) :=
  data <- df_column df label ;;
  Ok (combine (df_index df) data).

(** [df[label] = data] for a series over the frame's own index: an
    existing label keeps its place and takes the new cells, a new label is
    appended as the last column. *)
Definition df_setitem {I A : Type} (df : DataFrame I A) (label : string)
           (data : list A) : DataFrame I A :=
  if existsb (has_label label) (df_columns df)
  then mkDF (df_index df)
            (map (fun c => if has_label label c then (fst c, data) else c)
                 (df_columns df))
  else mkDF (df_index df) (df_columns df ++ [(label, data)]).

(** [df.set_index(label)]: the cells of the column become the index and
    the column leaves the frame. *)
Definition df_set_index {I A : Type} (df : DataFrame I A) (label : string)
  : result (DataFrame A A) :=
  data <- df_column df label ;;
  Ok (mkDF data (filter (fun c => negb (has_label label c)) (df_columns df))).

(** [df.drop(columns=labels)]: every label must be present. *)
Definition df_drop_columns {I A : Type} (df : DataFrame I A) (labels : list string)
  : result (DataFrame I A) :=
  match find (fun l => negb (existsb (has_label l) (df_columns df))) labels with
  | Some l => Error (KeyError l)
  | None => Ok (mkDF (df_index df)
                     (filter (fun c => negb (py_in (fst c) labels)) (df_columns df)))
  end.

(** [df.loc[:, labels]]: for each requested label, in the order requested,
    every column carrying it; all rows are kept. *)
Fixpoint loc_columns {A : Type} (cols : list (string * list A)) (labels : list string)
  : result (list (string * list A)) :=
  match labels with
  | [] => Ok []
  | l :: t =>
      match filter (has_label l) cols with
      | [] => Error (KeyError l)
      | hit => rest <- loc_columns cols t ;; Ok (hit ++ rest)
      end
  end.

Definition df_loc_cols {I A : Type} (df : DataFrame I A) (labels : list string)
  : result (DataFrame I A) :=
  cols <- loc_columns (df_columns df) labels ;;
  Ok (mkDF (df_index df) cols).

(** ** filter_df_cols *)

(** The loop of [filter_df_cols]: [selected_cols] grows by [append]. *)
Fixpoint select_cols (cols : list string) (type_selection : list string)
         (selected_cols : list string) : result (list string) :=
  match cols with
  | [] => Ok selected_cols
  | col :: rest =>
      c <- str_getitem col (-1) ;;
      if py_in c type_selection
      then select_cols rest type_selection (selected_cols ++ [col])
      else select_cols rest type_selection selected_cols
  end.

Definition filter_df_cols {I A : Type} (df : DataFrame I A)
           (type_selection : list string) : result (DataFrame I A) :=
  selected_cols <- select_cols (df_names df) type_selection [] ;;
  df_loc_cols df selected_cols.

(** ** The numeric interface of a pandas series *)

(** What [filter_outliers_from_series] and [make_figure] ask of the
    values of a numerical series.  [num_leb] is [<=]; Python's [a >= b]
    is [num_leb b a] (both are false when either side is NaN). *)
Class Numeric (V : Type) : Type := {
  ser_mean : list V -> V;
  ser_std : list V -> V;
  ser_min : list V -> V;
  ser_max : list V -> V;
  num_add : V -> V -> V;
  num_sub : V -> V -> V;
  num_mul : V -> V -> V;
  num_of_int : Z -> V;
  num_leb : V -> V -> bool;
  num_eqb : V -> V -> bool
}.

(** ** filter_outliers_from_series *)

Section Outliers.
Context {I V : Type} `{Numeric V}.

(** [ser >= x] and [ser <= x]: boolean series over the same index. *)
Definition ser_ge (ser : Series I V) (x : V) : Series I bool :=
  map (fun e => (fst e, num_leb x (snd e))) ser.

Definition ser_le (ser : Series I V) (x : V) : Series I bool :=
  map (fun e => (fst e, num_leb (snd e) x)) ser.

(** [a & b] on two boolean series sharing one index. *)
Definition ser_and (a b : Series I bool) : Series I bool :=
  map (fun p => (fst (fst p), snd (fst p) && snd (snd p))) (combine a b).

(** [ser.loc[fltr]] with a boolean series over the same index: the rows
    whose flag is [True]. *)
Definition ser_loc_mask (ser : Series I V) (fltr : Series I bool) : Series I V :=
  map fst (filter (fun p => snd (snd p)) (combine ser fltr)).

Definition lower_limit (ser : Series I V) : V :=
  num_sub (ser_mean (ser_values ser))
          (num_mul (num_of_int 3) (ser_std (ser_values ser))).

Definition upper_limit (ser : Series I V) : V :=
  num_add (ser_mean (ser_values ser))
          (num_mul (num_of_int 3) (ser_std (ser_values ser))).

Definition filter_outliers_from_series (ser : Series I V) : Series I V :=
  let mu := ser_mean (ser_values ser) in
  let std := ser_std (ser_values ser) in
  let lower_limit := num_sub mu (num_mul (num_of_int 3) std) in
  let upper_limit := num_add mu (num_mul (num_of_int 3) std) in
  let fltr := ser_and (ser_ge ser lower_limit) (ser_le ser upper_limit) in
  ser_loc_mask ser fltr.

(** The 3-sigma band test on one value, against limits computed from
    the series [ser]. *)
Definition within_band (ser : Series I V) (v : V) : bool :=
  num_leb (lower_limit ser) v && num_leb v (upper_limit ser).

End Outliers.

(** ** plotly: figures with a grid of subplots *)

Inductive visibility : Type :=
| VisTrue        (* visible=True *)
| LegendOnly.    (* visible='legendonly' *)

(** [go.Scatter(...)] with the properties the program sets. *)
Record Scatter (I V : Type) : Type := mkScatter {
  sc_x : list I;
  sc_y : list V;
  sc_legendgroup : string;
  sc_name : string;
  sc_showlegend : bool;
  sc_visible : visibility;
  sc_line_color : string
}.

(** A figure: the number of rows of its one-column subplot grid, the
    titles annotated above the grid cells, the traces with the row each
    was put in, and the layout size. *)
Record Figure (I V : Type) : Type := mkFigure {
  fig_rows : nat;
  fig_titles : list string;
  fig_data : list (nat * Scatter I V);
  fig_height : option nat;
  fig_width : option nat
}.

Section Plotly.
Context {I V : Type}.

(** [make_subplots(rows=rows, cols=1, shared_xaxes=True,
    vertical_spacing=spacing, subplot_titles=titles)]: [rows] must be
    positive; the spacing must lie in [0, 1] and, in a grid of more than
    one row, must not exceed [1 / (rows - 1)]; one title is annotated per
    grid cell, titles beyond the last cell are ignored. *)
Definition make_subplots (rows : nat) (vertical_spacing : Q)
           (subplot_titles : list string) : result (Figure I V) :=
  if (rows =? 0)%nat then Error (SubplotRows rows)
  else if (Qle_bool vertical_spacing 0%Q && negb (Qeq_bool vertical_spacing 0%Q))
          || negb (Qle_bool vertical_spacing 1%Q)
       then Error (SubplotSpacing rows)
  else if (1 <? rows)%nat
          && negb (Qle_bool vertical_spacing
                            (1%Q / inject_Z (Z.of_nat (rows - 1))))
       then Error (SubplotSpacing rows)
  else Ok (mkFigure rows (firstn rows subplot_titles) [] None None).

(** [fig.add_trace(trace, row=row, col=1)]: the cell must exist. *)
Definition add_trace (fig : Figure I V) (trace : Scatter I V) (row : nat)
  : result (Figure I V) :=
  if ((row =? 0) || (fig_rows fig <? row))%nat then Error (GridRange row)
  else Ok (mkFigure (fig_rows fig) (fig_titles fig)
                    (fig_data fig ++ [(row, trace)])
                    (fig_height fig) (fig_width fig)).

(** [fig.update_layout(height=h, width=w)]. *)
Definition update_layout (fig : Figure I V) (h w : nat) : Figure I V :=
  mkFigure (fig_rows fig) (fig_titles fig) (fig_data fig) (Some h) (Some w).

End Plotly.

(** ** Module-level constants of [main.py] *)

Definition label_dict : list (string * string) :=
  [("p", "real power");
   ("q", "imaginary power");
   ("i", "current");
   ("v", "voltage")].

(** An entry of the dropdown's [options]. *)
Record dropdown_option : Type := mkOption {
  opt_label : string;
  opt_value : string
}.

(** [[{"label": v, "value": k} for k, v in label_dict.items()]] *)
Definition dropdown_options : list dropdown_option :=
  map (fun kv => mkOption (snd kv) (fst kv)) label_dict.

(** The dropdown's initial [value]: [list(label_dict.keys())]. *)
Definition dropdown_value : list string := map fst label_dict.

(** The radio's [options] values and its initial [value]. *)
Definition outlier_radio_options : list string := ["include"; "remove"].
Definition outlier_radio_value : string := "include".

(** ** make_figure *)

Definition color_dict : list (nat * string) :=
  [(1%nat, "red"); (2%nat, "blue"); (3%nat, "green")].

(** [f"{label_dict[sym]} ({sym})"] *)
Definition subplot_title (sym : string) : result string :=
  l <- dict_get label_dict sym ;;
  Ok (l ++ " (" ++ sym ++ ")")%string.

Section MakeFigure.
Context {I V : Type} `{Numeric V}.

(** Truth value of a number, and Python's [a and b] on numbers. *)
Definition py_truthy (v : V) : bool := negb (num_eqb v (num_of_int 0)).
Definition py_and (a b : V) : V := if py_truthy a then b else a.

(** The locals that survive an iteration of the loop: the figure,
    [legend_lst], and the loop variable [i] (unbound before the first
    iteration). *)
Record loop_state : Type := mkLoop {
  st_fig : Figure I V;
  st_legend_lst : list string;
  st_i : option nat
}.

(** One iteration of [for i, col in enumerate(val_cols)]. *)
Definition plot_column (df : DataFrame I V) (type_selection : list string)
           (filter_outliers : bool) (st : loop_state) (i : nat) (col : string)
  : result loop_state :=
  y0 <- df_getitem df col ;;
  let y := if filter_outliers then filter_outliers_from_series y0 else y0 in
  c1 <- str_getitem col 1 ;;
  phase_num <- py_int c1 ;;
  val_type <- str_getitem col (-1) ;;
  let is_non_zero :=
    negb (num_eqb (py_and (ser_min (ser_values y)) (ser_max (ser_values y)))
                  (num_of_int 0)) in
  let visible_setting := if is_non_zero then VisTrue else LegendOnly in
  k <- list_index val_type type_selection ;;
  let row_num := (k + 1)%nat in
  color <- nat_dict_get color_dict phase_num ;;
  let legendgroup_name := ("phase " ++ py_str phase_num)%string in
  let seen := py_in legendgroup_name (st_legend_lst st) in
  let legend_lst :=
    if seen then st_legend_lst st else st_legend_lst st ++ [legendgroup_name] in
  let showlegend := negb seen in
  line_color <- nat_dict_get color_dict phase_num ;;
  fig <- add_trace (st_fig st)
           (mkScatter (ser_index y) (ser_values y) legendgroup_name
                      legendgroup_name showlegend visible_setting line_color)
           row_num ;;
  Ok (mkLoop fig legend_lst (Some i)).

Fixpoint plot_columns (df : DataFrame I V) (type_selection : list string)
         (filter_outliers : bool) (cols : list string) (i : nat)
         (st : loop_state) : result loop_state :=
  match cols with
  | [] => Ok st
  | col :: rest =>
      st' <- plot_column df type_selection filter_outliers st i col ;;
      plot_columns df type_selection filter_outliers rest (S i) st'
  end.

(** [fig.update_layout(height=(200*(i+1)), width=600)] reads [i]. *)
Definition finish_layout (st : loop_state) : result (Figure I V) :=
  match st_i st with
  | Some i => Ok (update_layout (st_fig st) (200 * (i + 1)) 600)
  | None => Error (UnboundLocal "i")
  end.

Definition make_figure (df : DataFrame I V) (type_selection : list string)
           (filter_outliers : bool) : result (Figure I V) :=
  let val_cols := df_names df in
  subplot_titles <- mapM subplot_title type_selection ;;
  fig <- make_subplots (List.length val_cols) 0.02%Q subplot_titles ;;
  st <- plot_columns df type_selection filter_outliers val_cols 0
          (mkLoop fig [] None) ;;
  finish_layout st.

(** ** update_graph *)

(** The callback, with the module-level frame [DF] as a parameter.  It
    returns a one-element tuple; the embedding returns its element. *)
Definition update_graph (DF : DataFrame I V) (type_selection : list string)
           (outlier_radio : string) : result (Figure I V) :=
  let outlier_radio_bool :=
    if String.eqb outlier_radio "include" then false else true in
  tdf <- filter_df_cols DF type_selection ;;
  make_figure tdf type_selection outlier_radio_bool.

End MakeFigure.

(** ** A binary64 instance of the numeric interface

    The values of a numerical column are IEEE-754 binary64 numbers.  The
    reductions skip NaN as pandas does ([skipna=True]); the standard
    deviation is the sample one ([ddof=1]). *)
Module Float64.
Local Open Scope float_scope.

Definition notna (x : float) : bool := PrimFloat.eqb x x.

Definition of_nat (n : nat) : float :=
  PrimFloat.of_uint63 (Uint63.of_Z (Z.of_nat n)).

Definition of_Z (z : Z) : float :=
  if (z <? 0)%Z then - PrimFloat.of_uint63 (Uint63.of_Z (- z))
  else PrimFloat.of_uint63 (Uint63.of_Z z).

Definition sum (l : list float) : float := fold_left PrimFloat.add l 0.

Definition mean (l : list float) : float :=
  let xs := filter notna l in
  sum xs / of_nat (List.length xs).

Definition std (l : list float) : float :=
  let xs := filter notna l in
  let n := List.length xs in
  if (n <=? 1)%nat then nan
  else
    let avg := sum xs / of_nat n in
    PrimFloat.sqrt (sum (map (fun x => (avg - x) * (avg - x)) xs) / of_nat (n - 1)).

Definition min (l : list float) : float :=
  match filter notna l with
  | [] => nan
  | x :: t => fold_left (fun m y => if PrimFloat.ltb y m then y else m) t x
  end.

Definition max (l : list float) : float :=
  match filter notna l with
  | [] => nan
  | x :: t => fold_left (fun m y => if PrimFloat.ltb m y then y else m) t x
  end.

#[global] Instance numeric : Numeric float := {|
  ser_mean := mean;
  ser_std := std;
  ser_min := min;
  ser_max := max;
  num_add := PrimFloat.add;
  num_sub := PrimFloat.sub;
  num_mul := PrimFloat.mul;
  num_of_int := of_Z;
  num_leb := PrimFloat.leb;
  num_eqb := PrimFloat.eqb
|}.
End Float64.

(** ** prep_datetime *)

(** A cell of the frame read from the CSV file: what the reader produced
    ([CRaw]), or a [Timedelta] or [Timestamp] stored by [prep_datetime]. *)
Inductive Cell (Raw Stamp Delta : Type) : Type :=
| CRaw (r : Raw)
| CDelta (d : Delta)
| CStamp (t : Stamp).

Arguments CRaw {Raw Stamp Delta} r.
Arguments CDelta {Raw Stamp Delta} d.
Arguments CStamp {Raw Stamp Delta} t.

Section PrepDatetime.
Context {I Raw Stamp Delta : Type}.

(** pandas' parsers and timestamp arithmetic.  [pd_to_datetime col c]
    parses the cell [c] of the column [col] (the format may be inferred
    from the whole column). *)
Variable pd_Timedelta : Cell Raw Stamp Delta -> result Delta.
Variable pd_to_datetime :
  list (Cell Raw Stamp Delta) -> Cell Raw Stamp Delta -> result Stamp.
Variable stamp_add : Stamp -> Delta -> result Stamp.

(** One row of [pd.to_datetime(df['day']) + df['time']]. *)
Definition cell_add (p : Stamp * Cell Raw Stamp Delta) : result Stamp :=
  match snd p with
  | CDelta d => stamp_add (fst p) d
  | _ => Error (LibraryError "unsupported operand type(s) for +")
  end.

(** The function assigns to its argument's columns before rebinding
    [df]; the embedding follows the returned frame. *)
Definition prep_datetime (df : DataFrame I (Cell Raw Stamp Delta))
  : result (DataFrame (Cell Raw Stamp Delta) (Cell Raw Stamp Delta)) :=
  time <- df_getitem df "time" ;;
  deltas <- mapM pd_Timedelta (ser_values time) ;;
  let df := df_setitem df "time" (map CDelta deltas) in
  day <- df_getitem df "day" ;;
  stamps <- mapM (pd_to_datetime (ser_values day)) (ser_values day) ;;
  time <- df_getitem df "time" ;;
  datetime <- mapM cell_add (combine stamps (ser_values time)) ;;
  let df := df_setitem df "datetime" (map CStamp datetime) in
  df <- df_set_index df "datetime" ;;
  df_drop_columns df ["day"; "time"].

End PrepDatetime.

(** ** Notions used to state the properties *)

(** The last character of a string, by structural recursion. *)
Fixpoint last_char (s : string) : option ascii :=
  match s with
  | EmptyString => None
  | String c rest =>
      match last_char rest with
      | Some d => Some d
      | None => Some c
      end
  end.

(** [subseries out inp]: [out] is [inp] with some rows deleted. *)
Inductive subseries {I A : Type} : Series I A -> Series I A -> Prop :=
| sub_done : subseries [] []
| sub_keep : forall e out inp, subseries out inp -> subseries (e :: out) (e :: inp)
| sub_drop : forall e out inp, subseries out inp -> subseries out (e :: inp).

(** [ends_in S name]: the last character of [name] is a member of [S]. *)
Definition ends_in (S : list string) (name : string) : bool :=
  match last_char name with
  | Some c => py_in (String c EmptyString) S
  | None => false
  end.

Definition nonempty (name : string) : bool :=
  match name with
  | EmptyString => false
  | String _ _ => true
  end.

(** The colour the spec assigns to each phase. *)
Definition phase_color (phase : nat) : option string :=
  match phase with
  | 1%nat => Some "red"
  | 2%nat => Some "blue"
  | 3%nat => Some "green"
  | _ => None
  end.

Section TraceSpec.
Context {I V : Type} `{Numeric V}.

(** The series drawn for a column with cells [data]. *)
Definition plotted_series (idx : list I) (filter_outliers : bool) (data : list V)
  : Series I V :=
  if filter_outliers then filter_outliers_from_series (combine idx data)
  else combine idx data.

(** [trace_for idx S flt c rt]: the trace [snd rt], placed in row [fst rt],
    is the one [make_figure] draws for the column [c]. *)
Definition trace_for (idx : list I) (S : list string) (filter_outliers : bool)
           (c : string * list V) (rt : nat * Scatter I V) : Prop :=
  exists d phase val_type k color,
    str_getitem (fst c) 1 = Ok d /\
    py_int d = Ok phase /\
    str_getitem (fst c) (-1) = Ok val_type /\
    list_index val_type S = Ok k /\
    phase_color phase = Some color /\
    fst rt = (k + 1)%nat /\
    sc_x (snd rt) = ser_index (plotted_series idx filter_outliers (snd c)) /\
    sc_y (snd rt) = ser_values (plotted_series idx filter_outliers (snd c)) /\
    sc_line_color (snd rt) = color /\
    sc_name (snd rt) = ("phase " ++ py_str phase)%string /\
    sc_legendgroup (snd rt) = ("phase " ++ py_str phase)%string.

End TraceSpec.

(** The exception raised by a failed [list.index]. *)
Definition is_not_in_list (e : exn) : bool :=
  match e with
  | NotInList _ => true
  | _ => false
  end.

(** The columns [prep_datetime] leaves in place: every label but the two
    it drops and the scratch label it turns into the index. *)
Definition keeps_label (name : string) : bool :=
  negb (py_in name ["day"; "time"; "datetime"]).

(** ** A reference clock for the parsers

    Timestamps and timedeltas are integer nanoseconds, as pandas stores
    them.  The parsers read the two layouts of the sensor file, a
    [YYYY-MM-DD] day and an [HH:MM:SS] time of day. *)
Module Clock.

(** A cell as the CSV reader leaves it. *)
Inductive csv_value : Type :=
| Text (s : string)
| Number (x : float).

Definition digit (c : ascii) : option Z :=
  let n := nat_of_ascii c in
  if ((48 <=? n) && (n <=? 57))%nat then Some (Z.of_nat (n - 48)) else None.

Fixpoint number_from (acc : Z) (s : string) : option Z :=
  match s with
  | EmptyString => Some acc
  | String c rest =>
      match digit c with
      | Some d => number_from (10 * acc + d)%Z rest
      | None => None
      end
  end.

Definition number (s : string) : option Z :=
  match s with
  | EmptyString => None
  | _ => number_from 0%Z s
  end.

Fixpoint split_on (sep : ascii) (s : string) : list string :=
  match s with
  | EmptyString => [EmptyString]
  | String c rest =>
      if Ascii.eqb c sep then EmptyString :: split_on sep rest
      else match split_on sep rest with
           | field :: fields => String c field :: fields
           | [] => [String c EmptyString]
           end
  end.

(** Days between 1970-01-01 and a date of the proleptic Gregorian calendar. *)
Definition days_from_civil (y m d : Z) : Z :=
  let y' := if (m <=? 2)%Z then (y - 1)%Z else y in
  let era := (y' / 400)%Z in
  let yoe := (y' - era * 400)%Z in
  let mp := if (2 <? m)%Z then (m - 3)%Z else (m + 9)%Z in
  let doy := ((153 * mp + 2) / 5 + d - 1)%Z in
  let doe := (yoe * 365 + yoe / 4 - yoe / 100 + doy)%Z in
  (era * 146097 + doe - 719468)%Z.

Definition ns_per_second : Z := 1000000000%Z.

(** Nanosecond counts are 64-bit: the least value is kept for [NaT], and
    a count outside the range raises. *)
Definition ns_min : Z := (-9223372036854775807)%Z.
Definition ns_max : Z := 9223372036854775807%Z.

Definition checked (ns : Z) : result Z :=
  if ((ns_min <=? ns) && (ns <=? ns_max))%Z then Ok ns
  else Error (LibraryError "Out of bounds nanosecond timestamp").

Definition parse_time (s : string) : result Z :=
  match map number (split_on ":" s) with
  | [Some h; Some m; Some sec] => checked ((h * 3600 + m * 60 + sec) * ns_per_second)%Z
  | _ => Error (LibraryError "unit abbreviation w/o a number")
  end.

Definition parse_day (s : string) : result Z :=
  match map number (split_on "-" s) with
  | [Some y; Some m; Some d] => checked (days_from_civil y m d * 86400 * ns_per_second)%Z
  | _ => Error (LibraryError "Unknown datetime string format")
  end.

Definition Timedelta (c : Cell csv_value Z Z) : result Z :=
  match c with
  | CRaw (Text s) => parse_time s
  | CDelta d => Ok d
  | _ => Error (LibraryError "Value must be Timedelta, string, integer, float")
  end.

Definition to_datetime (col : list (Cell csv_value Z Z)) (c : Cell csv_value Z Z)
  : result Z :=
  match c with
  | CRaw (Text s) => parse_day s
  | CStamp t => Ok t
  | _ => Error (LibraryError "Unknown datetime string format")
  end.

(** [Timestamp + Timedelta]: the sum must again be a 64-bit count. *)
Definition add (t d : Z) : result Z := checked (t + d)%Z.

End Clock.

(** ** Sample frames *)

Module Samples.
Import Clock.

(** Twelve readings of four signals; the last reading of [L1_p] lies more
    than three standard deviations from the mean, and [L2_p] is idle. *)
Definition readings : DataFrame nat float :=
  mkDF (seq 0 12)
       [("L1_p", [1; 1; 1; 1; 1; 1; 1; 1; 1; 1; 1; 100]%float);
        ("L2_p", [0; 0; 0; 0; 0; 0; 0; 0; 0; 0; 0; 0]%float);
        ("L3_p", [2; 3; 2; 3; 2; 3; 2; 3; 2; 3; 2; 3]%float);
        ("L1_q", [0.5; 0.25; 0.5; 0.25; 0.5; 0.25; 0.5; 0.25; 0.5; 0.25; 0.5; 0.25]%float)].

(** The three phases of one signal type. *)
Definition power_only : DataFrame nat float :=
  mkDF (seq 0 2)
       [("L1_p", [1; 2]%float); ("L2_p", [3; 4]%float); ("L3_p", [5; 6]%float)].

Definition readings_pq : DataFrame nat float :=
  Eval vm_compute in
    match filter_df_cols readings ["p"; "q"] with
    | Ok tdf => tdf
    | Error _ => mkDF [] []
    end.

Definition no_figure : Figure nat float := mkFigure 0 [] [] None None.

Definition figure_remove : Figure nat float :=
  Eval vm_compute in
    match update_graph readings ["q"; "p"] "remove" with
    | Ok fig => fig
    | Error _ => no_figure
    end.

Definition figure_power_only : Figure nat float :=
  Eval vm_compute in
    match make_figure power_only ["p"] false with
    | Ok fig => fig
    | Error _ => no_figure
    end.

(** A frame with an empty column label, and one with a repeated label. *)
Definition unnamed_column : DataFrame nat Z := mkDF [0%nat] [("", [7%Z])].

Definition repeated_label : DataFrame nat Z :=
  mkDF [0%nat] [("a_p", [1%Z]); ("a_p", [2%Z])].

(** Two rows as read from the sensor file. *)
Definition raw_rows : DataFrame nat (Cell csv_value Z Z) :=
  mkDF (seq 0 2)
       [("day", [CRaw (Text "2020-03-01"); CRaw (Text "2020-03-01")]);
        ("time", [CRaw (Text "00:00:00"); CRaw (Text "13:45:10")]);
        ("L1_p", [CRaw (Number 1.5%float); CRaw (Number 2.5%float)]);
        ("L1_v", [CRaw (Number 230%float); CRaw (Number 231%float)])].

(** The same rows in a file that already has a ['datetime'] column. *)
Definition raw_rows_with_datetime : DataFrame nat (Cell csv_value Z Z) :=
  mkDF (seq 0 2)
       [("day", [CRaw (Text "2020-03-01"); CRaw (Text "2020-03-01")]);
        ("time", [CRaw (Text "00:00:00"); CRaw (Text "13:45:10")]);
        ("datetime", [CRaw (Text "a"); CRaw (Text "b")]);
        ("L1_p", [CRaw (Number 1.5%float); CRaw (Number 2.5%float)])].

(** A last representable day with a late time of day: both cells parse,
    their sum is past the last timestamp. *)
Definition raw_rows_out_of_bounds : DataFrame nat (Cell csv_value Z Z) :=
  mkDF (seq 0 1)
       [("day", [CRaw (Text "2262-04-11")]);
        ("time", [CRaw (Text "23:59:59")]);
        ("L1_p", [CRaw (Number 1.5%float)])].

(** A time of day that is not a duration. *)
Definition raw_rows_unparsed : DataFrame nat (Cell csv_value Z Z) :=
  mkDF (seq 0 1)
       [("day", [CRaw (Text "2020-03-01")]);
        ("time", [CRaw (Text "noon")]);
        ("L1_p", [CRaw (Number 1.5%float)])].

(** Frames read from a file that lacks the ['time'] or the ['day'] column. *)
Definition no_time_column : DataFrame nat (Cell csv_value Z Z) :=
  mkDF (seq 0 1) [("L1_p", [CRaw (Number 1.5%float)])].

Definition no_day_column : DataFrame nat (Cell csv_value Z Z) :=
  mkDF (seq 0 1)
       [("time", [CRaw (Text "00:00:10")]); ("L1_p", [CRaw (Number 1.5%float)])].

(** Fifty-two columns, one more than the spacing 0.02 allows rows. *)
Definition wide : DataFrame nat float :=
  mkDF [] (map (fun k => (("L1_" ++ py_str k ++ "_p")%string, [])) (seq 0 52)).

(** The labels of [power_only] over no rows at all. *)
Definition power_only_no_rows : DataFrame nat float :=
  mkDF [] [("L1_p", []); ("L2_p", []); ("L3_p", [])].

Definition prepared_rows : DataFrame (Cell csv_value Z Z) (Cell csv_value Z Z) :=
  Eval vm_compute in
    match prep_datetime Timedelta to_datetime add raw_rows with
    | Ok out => out
    | Error _ => mkDF [] []
    end.

End Samples.

(** ** Notions used to state further properties *)

(** The frame restricted to the columns ending in a selected code. *)
Definition df_restrict {I A : Type} (df : DataFrame I A) (sel : list string)
  : DataFrame I A :=
  mkDF (df_index df) (filter (fun c => ends_in sel (fst c)) (df_columns df)).

(** [sym] is one of the codes of [label_dict]. *)
Definition known_code (sym : string) : bool := py_in sym (map fst label_dict).

(** The character at index 1 of [name] is one of the digits 1, 2, 3. *)
Definition has_phase (name : string) : bool :=
  match String.get 1 name with
  | Some c => (Ascii.eqb c "1" || Ascii.eqb c "2" || Ascii.eqb c "3")%bool
  | None => false
  end.

(** The position in [sel] of the first entry equal to the last character
    of [name]. *)
Definition row_of (sel : list string) (name : string) : option nat :=
  match last_char name with
  | Some c =>
      match list_index (String c EmptyString) sel with
      | Ok k => Some k
      | Error _ => None
      end
  | None => None
  end.

(** A label that [make_figure] can draw in a grid of [rows] rows. *)
Definition label_ok (sel : list string) (rows : nat) (name : string) : bool :=
  has_phase name &&
  match row_of sel name with
  | Some k => (k + 1 <=? rows)%nat
  | None => false
  end.

Fixpoint nodupb (l : list string) : bool :=
  match l with
  | [] => true
  | x :: t => negb (py_in x t) && nodupb t
  end.

(** The column labels and the selection for which [make_figure] returns a
    figure: known codes, between 1 and 51 columns (the grids that the
    spacing 0.02 allows), distinct labels, and every label drawable in a
    grid with one row per column. *)
Definition plottable (names : list string) (sel : list string) : bool :=
  forallb known_code sel
  && negb (List.length names =? 0)%nat
  && (List.length names <=? 51)%nat
  && nodupb names
  && forallb (label_ok sel (List.length names)) names.

(** A label made of ASCII characters only: on such labels a byte is a
    character and [int] accepts exactly the digits 0 to 9. *)
Fixpoint ascii_label (name : string) : bool :=
  match name with
  | EmptyString => true
  | String c rest => (nat_of_ascii c <? 128)%nat && ascii_label rest
  end.

(** How many times the label [l] occurs among [names]. *)
Fixpoint label_count (l : string) (names : list string) : nat :=
  match names with
  | [] => 0%nat
  | n :: t => (if String.eqb n l then 1 else 0) + label_count l t
  end.

Section StyleSpec.
Context {I V : Type} `{Numeric V}.

Definition trace_name (rt : nat * Scatter I V) : string := sc_name (snd rt).

(** A trace starts hidden exactly when the minimum or the maximum of its
    values equals zero. *)
Definition visible_rule (rt : nat * Scatter I V) : Prop :=
  sc_visible (snd rt) =
  if (num_eqb (ser_min (sc_y (snd rt))) (num_of_int 0)
      || num_eqb (ser_max (sc_y (snd rt))) (num_of_int 0))%bool
  then LegendOnly else VisTrue.

(** A trace enters the legend exactly when no earlier trace has its name. *)
Definition legend_rule (data : list (nat * Scatter I V)) : Prop :=
  forall pre rt post,
    data = pre ++ rt :: post ->
    sc_showlegend (snd rt) = negb (py_in (trace_name rt) (map trace_name pre)).

(** What the loop keeps true of the legend list and of the traces drawn
    so far. *)
Definition style_inv (st : @loop_state I V) : Prop :=
  (forall n, py_in n (st_legend_lst st) =
             py_in n (map trace_name (fig_data (st_fig st))))
  /\ legend_rule (fig_data (st_fig st))
  /\ Forall visible_rule (fig_data (st_fig st)).

End StyleSpec.

(** ** Proof steps for monadic code *)

(** Inversion of one monadic step that returned. *)
Ltac bind_ok Hb x E :=
  match type of Hb with
  | bind ?e _ = Ok _ =>
      destruct e as [x|] eqn:E; cbn [bind] in Hb; [|discriminate Hb];
      cbv beta zeta in Hb
  end.

(** Inversion of one monadic step inside a computation that raised. *)
Ltac bind_err Hb x E :=
  match type of Hb with
  | bind ?e _ = Error _ =>
      destruct e as [x|x] eqn:E; cbn [bind] in Hb; cbv beta zeta in Hb
  end.

(** * Properties *)

(** ** Basic facts about the built-ins *)

Lemma string_get_last : forall s c,
  last_char s = Some c -> String.get (String.length s - 1) s = Some c.
Proof.
  induction s as [|a s IH]; intros c Hc; simpl in *.
  - discriminate.
  - destruct (last_char s) as [d|] eqn:Hs.
    + inversion Hc; subst d.
      destruct s as [|b s']; [discriminate|].
      specialize (IH c eq_refl).
      simpl String.length in *.
      replace (S (S (String.length s')) - 1)%nat with (S (String.length s')) by lia.
      replace (S (String.length s') - 1)%nat with (String.length s') in IH by lia.
      exact IH.
    + inversion Hc; subst a.
      destruct s as [|b s']; [reflexivity|].
      simpl in Hs. destruct (last_char s'); discriminate.
Qed.

Lemma last_char_none : forall s, last_char s = None -> s = EmptyString.
Proof.
  destruct s as [|a s]; simpl; intros Hs; [reflexivity|].
  destruct (last_char s); discriminate.
Qed.

(** [s[-1]] is the last character, and raises exactly on the empty string. *)
Lemma str_getitem_last : forall s,
  str_getitem s (-1) =
  match last_char s with
  | Some c => Ok (String c EmptyString)
  | None => Error IndexError
  end.
Proof.
  intros s. destruct (last_char s) as [c|] eqn:Hs.
  - pose proof (string_get_last s Hs) as Hget.
    unfold str_getitem.
    assert (Hlen : (0 < String.length s)%nat).
    { destruct s; [discriminate | simpl; lia]. }
    replace (-1 <? 0)%Z with true by reflexivity.
    cbv zeta.
    replace ((-1 + Z.of_nat (String.length s) <? 0)%Z) with false
      by (symmetry; apply Z.ltb_ge; lia).
    replace ((Z.of_nat (String.length s) <=? -1 + Z.of_nat (String.length s))%Z)
      with false by (symmetry; apply Z.leb_gt; lia).
    simpl orb. cbv iota.
    replace (Z.to_nat (-1 + Z.of_nat (String.length s)))
      with (String.length s - 1)%nat by lia.
    rewrite Hget. reflexivity.
  - apply last_char_none in Hs. subst s. reflexivity.
Qed.

Lemma py_in_In : forall x l, py_in x l = true <-> In x l.
Proof.
  intros x l. unfold py_in. rewrite existsb_exists. split.
  - intros [y [Hy Heq]]. apply String.eqb_eq in Heq. subst y. exact Hy.
  - intros Hin. exists x. split; [exact Hin | apply String.eqb_refl].
Qed.

(** [l.index(x)] succeeds exactly when [x in l], with a position inside [l]. *)
Lemma list_index_in : forall x l,
  py_in x l = true -> exists k, list_index x l = Ok k /\ (k < List.length l)%nat.
Proof.
  intros x l. induction l as [|y t IH]; simpl; intros Hin.
  - discriminate.
  - rewrite String.eqb_sym in Hin.
    destruct (String.eqb y x) eqn:Hyx.
    + exists 0%nat. split; [reflexivity | lia].
    + simpl in Hin. destruct (IH Hin) as [k [Hk Hlt]].
      exists (S k). rewrite Hk. split; [reflexivity | lia].
Qed.

Lemma mapM_length : forall (A B : Type) (f : A -> result B) l out,
  mapM f l = Ok out -> List.length out = List.length l.
Proof.
  induction l as [|a t IH]; simpl; intros out Hm.
  - inversion Hm. reflexivity.
  - destruct (f a); simpl in Hm; [|discriminate].
    destruct (mapM f t); simpl in Hm; [|discriminate].
    inversion Hm. simpl. f_equal. apply IH. reflexivity.
Qed.

Lemma values_combine : forall (I A : Type) (idx : list I) (data : list A),
  List.length data = List.length idx -> ser_values (combine idx data) = data.
Proof.
  unfold ser_values. induction idx as [|i idx IH]; destruct data as [|d data];
    simpl; intros Hlen; try discriminate; try reflexivity.
  f_equal. apply IH. lia.
Qed.

(** With the spacing [make_figure] passes, 0.02, a grid is granted for
    1 to 51 rows. *)
Lemma make_subplots_spec : forall (I V : Type) (rows : nat) (titles : list string),
  @make_subplots I V rows 0.02%Q titles =
  if (rows =? 0)%nat then Error (SubplotRows rows)
  else if (51 <? rows)%nat then Error (SubplotSpacing rows)
  else Ok (mkFigure rows (firstn rows titles) [] None None).
Proof.
  intros I V rows titles. unfold make_subplots.
  destruct (rows =? 0)%nat eqn:Hz; [reflexivity|].
  apply Nat.eqb_neq in Hz.
  replace (Qle_bool 0.02 0 && negb (Qeq_bool 0.02 0) || negb (Qle_bool 0.02 1))%Q
    with false by reflexivity.
  destruct (1 <? rows)%nat eqn:H1; cbn [andb].
  - apply Nat.ltb_lt in H1.
    destruct (Z.of_nat (rows - 1)) as [|p|p] eqn:Hp; try lia.
    assert (Hq : Qle_bool 0.02%Q (1%Q / inject_Z (Z.pos p)) = (Z.pos p <=? 50)%Z).
    { unfold Qle_bool, Qdiv, Qmult, Qinv, inject_Z. cbn [Qnum Qden].
      destruct (Z.pos p <=? 50)%Z eqn:Hle.
      - apply Z.leb_le. apply Z.leb_le in Hle. lia.
      - apply Z.leb_gt. apply Z.leb_gt in Hle. lia. }
    rewrite Hq. destruct (51 <? rows)%nat eqn:H51.
    + apply Nat.ltb_lt in H51.
      replace (Z.pos p <=? 50)%Z with false; [reflexivity|].
      symmetry. apply Z.leb_gt. lia.
    + apply Nat.ltb_ge in H51.
      replace (Z.pos p <=? 50)%Z with true; [reflexivity|].
      symmetry. apply Z.leb_le. lia.
  - apply Nat.ltb_ge in H1.
    replace (51 <? rows)%nat with false; [reflexivity|].
    symmetry. apply Nat.ltb_ge. lia.
Qed.

(** ** Sub-series *)

Lemma subseries_filter : forall (I A : Type) (p : I * A -> bool) (s : Series I A),
  subseries (filter p s) s.
Proof.
  induction s as [|e s IH]; simpl.
  - constructor.
  - destruct (p e); constructor; exact IH.
Qed.

Lemma subseries_In : forall (I A : Type) (out inp : Series I A),
  subseries out inp -> forall e, In e out -> In e inp.
Proof.
  induction 1; simpl; intros x Hx; intuition.
Qed.

(** ** filter_outliers_from_series *)

Section OutlierFacts.
Context {I V : Type} `{Numeric V}.

(** The mask built from two scalar comparisons selects like a filter. *)
Lemma ser_loc_mask_band : forall (lo hi : V) (ser : Series I V),
  ser_loc_mask ser (ser_and (ser_ge ser lo) (ser_le ser hi)) =
  filter (fun e => num_leb lo (snd e) && num_leb (snd e) hi) ser.
Proof.
  intros lo hi ser. unfold ser_loc_mask, ser_and, ser_ge, ser_le.
  induction ser as [|e ser IH]; simpl.
  - reflexivity.
  - destruct (num_leb lo (snd e) && num_leb (snd e) hi); simpl;
      rewrite IH; reflexivity.
Qed.

Lemma filter_outliers_as_filter : forall ser : Series I V,
  filter_outliers_from_series ser = filter (fun e => within_band ser (snd e)) ser.
Proof.
  intros ser. unfold filter_outliers_from_series. cbv zeta.
  rewrite ser_loc_mask_band. reflexivity.
Qed.

(** C1: [filter_outliers_from_series] keeps exactly the entries whose value
    [v] satisfies [mean - 3*std <= v <= mean + 3*std], where the mean and
    the standard deviation are those of the whole input series: the
    result is the input filtered by that one band, and an entry is in the
    result if and only if it is in the input and inside the band. *)
Theorem filter_outliers_three_sigma : forall ser : Series I V,
  let mu := ser_mean (ser_values ser) in
  let std := ser_std (ser_values ser) in
  let lo := num_sub mu (num_mul (num_of_int 3) std) in
  let hi := num_add mu (num_mul (num_of_int 3) std) in
  filter_outliers_from_series ser =
    filter (fun e => num_leb lo (snd e) && num_leb (snd e) hi) ser
  /\ forall e, In e (filter_outliers_from_series ser) <->
               In e ser /\ num_leb lo (snd e) = true /\ num_leb (snd e) hi = true.
Proof.
  intros ser mu std lo hi.
  assert (Heq : filter_outliers_from_series ser =
                filter (fun e => num_leb lo (snd e) && num_leb (snd e) hi) ser).
  { apply filter_outliers_as_filter. }
  split; [exact Heq|].
  intros e. rewrite Heq, filter_In, andb_true_iff. reflexivity.
Qed.

(** C9: the output of [filter_outliers_from_series] is a sub-series of its
    input: it is the input with rows deleted, so every (index, value) pair
    of the output is a pair of the input, unmodified and in the original
    relative order. *)
Theorem filter_outliers_subseries : forall ser : Series I V,
  subseries (filter_outliers_from_series ser) ser
  /\ forall e, In e (filter_outliers_from_series ser) -> In e ser.
Proof.
  intros ser.
  assert (Hsub : subseries (filter_outliers_from_series ser) ser).
  { rewrite filter_outliers_as_filter. apply subseries_filter. }
  split; [exact Hsub | apply subseries_In; exact Hsub].
Qed.

End OutlierFacts.

(** ** filter_df_cols *)

Lemma nonempty_last_char : forall s,
  nonempty s = true -> exists c, last_char s = Some c.
Proof.
  destruct s as [|a s]; simpl; intros Hs; [discriminate|].
  destruct (last_char s) as [d|]; eauto.
Qed.

(** The selection loop: it raises exactly when some label is empty, and
    otherwise appends the labels ending in a selected code, in order. *)
Lemma select_cols_spec : forall S cols acc,
  select_cols cols S acc =
  if forallb nonempty cols then Ok (acc ++ filter (ends_in S) cols)
  else Error IndexError.
Proof.
  intros S. induction cols as [|col rest IH]; intros acc; simpl.
  - rewrite app_nil_r. reflexivity.
  - rewrite str_getitem_last. unfold ends_in.
    destruct col as [|a col']; [reflexivity|].
    destruct (nonempty_last_char (String a col') eq_refl) as [c Hc].
    rewrite Hc. simpl bind. simpl nonempty. simpl andb.
    destruct (py_in (String c EmptyString) S); rewrite IH;
      destruct (forallb nonempty rest); try reflexivity.
    rewrite <- app_assoc. reflexivity.
Qed.

Lemma filter_has_label_unique : forall (A : Type) (all : list (string * list A)) c,
  NoDup (map fst all) -> In c all -> filter (has_label (fst c)) all = [c].
Proof.
  induction all as [|d all IH]; simpl; intros c Hnd Hin; [contradiction|].
  inversion Hnd as [|? ? Hnotin Hnd']; subst.
  unfold has_label at 1.
  destruct Hin as [Heq | Hin].
  - subst d. rewrite String.eqb_refl. f_equal.
    destruct (filter (has_label (fst c)) all) as [|e l] eqn:Hf; [reflexivity|].
    exfalso. apply Hnotin.
    assert (He : In e (filter (has_label (fst c)) all)) by (rewrite Hf; left; reflexivity).
    apply filter_In in He. destruct He as [He Hlab].
    unfold has_label in Hlab. apply String.eqb_eq in Hlab. rewrite <- Hlab.
    apply in_map. exact He.
  - destruct (String.eqb (fst d) (fst c)) eqn:Hdc.
    + exfalso. apply String.eqb_eq in Hdc. apply Hnotin. rewrite Hdc.
      apply in_map. exact Hin.
    + apply IH; assumption.
Qed.

Lemma loc_columns_unique : forall (A : Type) (all cs : list (string * list A)),
  NoDup (map fst all) -> (forall c, In c cs -> In c all) ->
  loc_columns all (map fst cs) = Ok cs.
Proof.
  intros A all cs Hnd. induction cs as [|c cs IH]; simpl; intros Hin.
  - reflexivity.
  - rewrite (filter_has_label_unique all c Hnd (Hin c (or_introl eq_refl))).
    rewrite IH by (intros d Hd; apply Hin; right; exact Hd).
    reflexivity.
Qed.

Lemma map_fst_filter : forall (A : Type) (p : string -> bool) (cols : list (string * A)),
  map fst (filter (fun c => p (fst c)) cols) = filter p (map fst cols).
Proof.
  induction cols as [|c cols IH]; simpl; [reflexivity|].
  destruct (p (fst c)); simpl; rewrite IH; reflexivity.
Qed.

(** Every column returned by [loc] carries one of the requested labels. *)
Lemma loc_columns_labels : forall (A : Type) (all : list (string * list A)) labels out,
  loc_columns all labels = Ok out -> forall c, In c out -> In (fst c) labels.
Proof.
  intros A all. induction labels as [|l t IH]; simpl; intros out Hloc c Hc.
  - inversion Hloc; subst. contradiction.
  - destruct (filter (has_label l) all) as [|h hs] eqn:Hf; [discriminate|].
    destruct (loc_columns all t) as [rest|] eqn:Hrest; simpl in Hloc; [|discriminate].
    inversion Hloc; subst out.
    change (In c ((h :: hs) ++ rest)) in Hc.
    apply in_app_or in Hc. destruct Hc as [Hc | Hc].
    + left. rewrite <- Hf in Hc. apply filter_In in Hc. destruct Hc as [_ Hlab].
      unfold has_label in Hlab. apply String.eqb_eq in Hlab. symmetry. exact Hlab.
    + right. eapply IH; [reflexivity | exact Hc].
Qed.

Section FilterColsFacts.
Context {I A : Type}.

(** C3 (amended): on a frame whose column labels are non-empty and pairwise
    distinct, [filter_df_cols df S] returns the frame restricted to
    exactly the columns whose last character is a member of [S]: the
    surviving columns keep their original order, the row index and every
    kept cell are unchanged. *)
Theorem filter_df_cols_restricts : forall (df : DataFrame I A) (S : list string),
  NoDup (df_names df) ->
  forallb nonempty (df_names df) = true ->
  filter_df_cols df S =
  Ok (mkDF (df_index df) (filter (fun c => ends_in S (fst c)) (df_columns df))).
Proof.
  intros df S Hnd Hne. unfold filter_df_cols.
  rewrite select_cols_spec, Hne. simpl bind.
  unfold df_loc_cols, df_names.
  rewrite <- (map_fst_filter (ends_in S)).
  rewrite loc_columns_unique; [reflexivity | exact Hnd |].
  intros c Hc. apply filter_In in Hc. tauto.
Qed.

(** What [filter_df_cols] selects, whenever it returns: every column of the
    result ends in a selected code. *)
Lemma filter_df_cols_names : forall (df tdf : DataFrame I A) (S : list string),
  filter_df_cols df S = Ok tdf ->
  df_index tdf = df_index df /\
  forall col, In col (df_names tdf) -> ends_in S col = true.
Proof.
  intros df tdf S. unfold filter_df_cols. rewrite select_cols_spec.
  destruct (forallb nonempty (df_names df)); simpl bind; [|discriminate].
  unfold df_loc_cols.
  destruct (loc_columns (df_columns df) (filter (ends_in S) (df_names df)))
    as [cols|] eqn:Hloc; simpl bind; [|discriminate].
  intros Hok. inversion Hok; subst tdf. simpl. split; [reflexivity|].
  intros col Hcol. unfold df_names in Hcol. simpl in Hcol.
  apply in_map_iff in Hcol. destruct Hcol as [c [Hfst Hc]]. subst col.
  pose proof (loc_columns_labels _ _ Hloc c Hc) as Hlab.
  apply filter_In in Hlab. tauto.
Qed.

End FilterColsFacts.

(** ** make_figure *)

Lemma df_column_in : forall (I A : Type) (df : DataFrame I A) l data,
  df_column df l = Ok data ->
  forall c, In c (df_columns df) -> fst c = l -> snd c = data.
Proof.
  intros I A df l data Hcol c Hc Hl. unfold df_column in Hcol.
  assert (Hf : In c (filter (has_label l) (df_columns df))).
  { apply filter_In. split; [exact Hc|]. unfold has_label. rewrite Hl.
    apply String.eqb_refl. }
  destruct (filter (has_label l) (df_columns df)) as [|[n d] [|e t]];
    try discriminate.
  inversion Hcol; subst d. destruct Hf as [Hf | []]. subst c. reflexivity.
Qed.

Lemma nat_dict_get_color : forall phase color,
  nat_dict_get color_dict phase = Ok color -> phase_color phase = Some color.
Proof.
  intros phase color.
  destruct phase as [|[|[|[|n]]]]; simpl; intros Hc; inversion Hc; reflexivity.
Qed.

Section MakeFigureFacts.
Context {I V : Type} `{Numeric V}.

(** One iteration appends exactly one trace, the one described by
    [trace_for], and leaves the grid untouched. *)
Lemma plot_column_ok : forall (df : DataFrame I V) S flt st i c st',
  In c (df_columns df) ->
  plot_column df S flt st i (fst c) = Ok st' ->
  exists rt,
    trace_for (df_index df) S flt c rt /\
    fig_data (st_fig st') = fig_data (st_fig st) ++ [rt] /\
    fig_rows (st_fig st') = fig_rows (st_fig st) /\
    fig_titles (st_fig st') = fig_titles (st_fig st) /\
    (fst rt <= fig_rows (st_fig st))%nat /\
    st_i st' = Some i.
Proof.
  intros df S flt st i c st' Hc Hp. unfold plot_column in Hp.
  bind_ok Hp y0 Ey. bind_ok Hp d Ed. bind_ok Hp phase Ephase.
  bind_ok Hp vt Evt. bind_ok Hp k Ek. bind_ok Hp color Ecolor.
  bind_ok Hp fig Efig.
  inversion Hp; subst st'; clear Hp. cbn [st_fig st_i].
  unfold df_getitem in Ey. bind_ok Ey data Edata. inversion Ey; subst y0; clear Ey.
  pose proof (df_column_in df Edata c Hc eq_refl) as Hdata.
  unfold add_trace in Efig.
  destruct ((k + 1 =? 0)%nat || (fig_rows (st_fig st) <? k + 1)%nat) eqn:Hrow;
    [discriminate|].
  apply orb_false_iff in Hrow. destruct Hrow as [_ Hrow].
  apply Nat.ltb_ge in Hrow.
  inversion Efig; subst fig; clear Efig. cbn [fig_data fig_rows fig_titles].
  eexists. split; [|split; [reflexivity|]].
  - exists d, phase, vt, k, color. cbn [fst snd sc_x sc_y sc_line_color sc_name sc_legendgroup].
    unfold plotted_series. rewrite Hdata.
    repeat split; try assumption; try reflexivity.
    apply nat_dict_get_color; assumption.
  - cbn [fst]. repeat split; try reflexivity. exact Hrow.
Qed.

(** The loop appends one trace per column, in column order. *)
Lemma plot_columns_ok : forall (df : DataFrame I V) S flt cs i st st',
  (forall c, In c cs -> In c (df_columns df)) ->
  plot_columns df S flt (map fst cs) i st = Ok st' ->
  exists new,
    Forall2 (trace_for (df_index df) S flt) cs new /\
    fig_data (st_fig st') = fig_data (st_fig st) ++ new /\
    fig_rows (st_fig st') = fig_rows (st_fig st) /\
    fig_titles (st_fig st') = fig_titles (st_fig st) /\
    st_i st' = match cs with
               | [] => st_i st
               | _ :: _ => Some (i + List.length cs - 1)%nat
               end.
Proof.
  intros df S flt. induction cs as [|c cs IH]; intros i st st' Hin Hp.
  - simpl in Hp. inversion Hp; subst st'. exists [].
    rewrite app_nil_r. repeat split; try reflexivity. constructor.
  - cbn [map plot_columns] in Hp. bind_ok Hp st1 E1.
    destruct (plot_column_ok df S flt st i c (Hin c (or_introl eq_refl)) E1)
      as [rt [Hrt [Hdata1 [Hrows1 [Htitles1 [_ Hi1]]]]]].
    destruct (IH (Datatypes.S i) st1 st' (fun d Hd => Hin d (or_intror Hd)) Hp)
      as [new [Hnew [Hdata [Hrows [Htitles Hi]]]]].
    exists (rt :: new). split; [constructor; assumption|].
    split; [rewrite Hdata, Hdata1, <- app_assoc; reflexivity|].
    split; [congruence|]. split; [congruence|].
    rewrite Hi. destruct cs as [|c' cs'].
    + rewrite Hi1. simpl. f_equal. lia.
    + simpl. f_equal. lia.
Qed.

(** What a returned figure holds. *)
Lemma make_figure_ok : forall (df : DataFrame I V) S flt fig,
  make_figure df S flt = Ok fig ->
  exists titles,
    mapM subplot_title S = Ok titles /\
    fig_rows fig = List.length (df_columns df) /\
    fig_titles fig = firstn (List.length (df_columns df)) titles /\
    Forall2 (trace_for (df_index df) S flt) (df_columns df) (fig_data fig) /\
    fig_height fig = Some (200 * List.length (df_columns df))%nat /\
    fig_width fig = Some 600%nat.
Proof.
  intros df S flt fig Hm. unfold make_figure in Hm. cbv zeta in Hm.
  bind_ok Hm titles Et. bind_ok Hm fig0 Ef. bind_ok Hm st Es.
  rewrite make_subplots_spec in Ef. unfold df_names in *. rewrite length_map in Ef.
  destruct (List.length (df_columns df) =? 0)%nat eqn:Hz; [discriminate|].
  destruct (51 <? List.length (df_columns df))%nat; [discriminate|].
  inversion Ef; subst fig0; clear Ef.
  destruct (plot_columns_ok df S flt (df_columns df) 0 _ (fun c Hc => Hc) Es)
    as [new [Hnew [Hdata [Hrows [Htitles Hi]]]]].
  cbn [st_fig fig_data fig_rows fig_titles st_i app] in *.
  unfold finish_layout in Hm. rewrite Hi in Hm.
  destruct (df_columns df) as [|c cs] eqn:Hcols; [discriminate|].
  inversion Hm; subst fig; clear Hm. unfold update_layout.
  cbn [fig_rows fig_titles fig_data fig_height fig_width].
  exists titles. rewrite Hdata. repeat split; try assumption.
  f_equal. simpl List.length. lia.
Qed.

End MakeFigureFacts.

(** ** Which exceptions the steps of make_figure raise *)

Lemma str_getitem_err : forall s k e, str_getitem s k = Error e -> e = IndexError.
Proof.
  intros s k e. unfold str_getitem. cbv zeta.
  destruct (_ || _)%bool; [intros Hs; inversion Hs; reflexivity|].
  destruct (String.get _ s); intros Hs; inversion Hs; reflexivity.
Qed.

Lemma py_int_err : forall c e, py_int c = Error e -> e = IntValueError c.
Proof.
  intros c e. unfold py_int. destruct c as [|a [|b t]]; cbv zeta;
    try (intros Hs; inversion Hs; reflexivity).
  destruct (_ && _)%bool; intros Hs; inversion Hs; reflexivity.
Qed.

Lemma nat_dict_get_err : forall (A : Type) (d : list (nat * A)) k e,
  nat_dict_get d k = Error e -> e = KeyError (py_str k).
Proof.
  induction d as [|[k' v] t IH]; simpl; intros k e Hd.
  - inversion Hd. reflexivity.
  - destruct (Nat.eqb k' k); [discriminate | apply IH; exact Hd].
Qed.

Lemma dict_get_err : forall (A : Type) (d : list (string * A)) k e,
  dict_get d k = Error e -> e = KeyError k.
Proof.
  induction d as [|[k' v] t IH]; simpl; intros k e Hd.
  - inversion Hd. reflexivity.
  - destruct (String.eqb k' k); [discriminate | apply IH; exact Hd].
Qed.

Lemma df_column_err : forall (I A : Type) (df : DataFrame I A) l e,
  df_column df l = Error e -> e = KeyError l \/ e = NotASeries l.
Proof.
  intros I A df l e. unfold df_column.
  destruct (filter (has_label l) (df_columns df)) as [|[n d] [|c t]];
    intros Hd; inversion Hd; auto.
Qed.

Lemma mapM_err : forall (A B : Type) (f : A -> result B) (P : exn -> Prop) l e,
  (forall a e', f a = Error e' -> P e') -> mapM f l = Error e -> P e.
Proof.
  intros A B f P l e Hf. induction l as [|a t IH]; simpl; intros Hm.
  - discriminate.
  - destruct (f a) as [b|e1] eqn:Ea; cbn [bind] in Hm.
    + destruct (mapM f t) as [bs|e2]; cbn [bind] in Hm; [discriminate|].
      inversion Hm; subst e2. apply IH. reflexivity.
    + inversion Hm; subst e1. eapply Hf. exact Ea.
Qed.

(** A label ending in a selected code is found by [type_selection.index]. *)
Lemma ends_in_index : forall sel col,
  ends_in sel col = true ->
  exists val_type k,
    str_getitem col (-1) = Ok val_type /\
    list_index val_type sel = Ok k /\
    (1 <= k + 1 <= List.length sel)%nat.
Proof.
  intros sel col Hend. unfold ends_in in Hend. rewrite str_getitem_last.
  destruct (last_char col) as [c|]; [|discriminate].
  destruct (list_index_in _ _ Hend) as [k [Hk Hlt]].
  exists (String c EmptyString), k. repeat split; try assumption; lia.
Qed.

Section CallbackFacts.
Context {I V : Type} `{Numeric V}.

Lemma plot_column_err : forall (df : DataFrame I V) sel flt st i col e,
  ends_in sel col = true ->
  plot_column df sel flt st i col = Error e -> is_not_in_list e = false.
Proof.
  intros df sel flt st i col e Hend Hp. unfold plot_column in Hp.
  bind_err Hp y0 Ey.
  2:{ inversion Hp; subst. unfold df_getitem in Ey.
      destruct (df_column df col) eqn:Ec; cbn [bind] in Ey; [discriminate|].
      inversion Ey; subst. destruct (df_column_err _ _ Ec); subst; reflexivity. }
  bind_err Hp d Ed.
  2:{ inversion Hp; subst. rewrite (str_getitem_err _ _ Ed). reflexivity. }
  bind_err Hp phase Ephase.
  2:{ inversion Hp; subst. rewrite (py_int_err _ Ephase). reflexivity. }
  bind_err Hp vt Evt.
  2:{ inversion Hp; subst. rewrite (str_getitem_err _ _ Evt). reflexivity. }
  destruct (ends_in_index _ _ Hend) as [vt' [k [Hvt [Hk _]]]].
  rewrite Evt in Hvt. inversion Hvt; subst vt'. rewrite Hk in Hp.
  cbn [bind] in Hp. cbv beta zeta in Hp.
  bind_err Hp color Ecolor.
  2:{ inversion Hp; subst. rewrite (nat_dict_get_err _ _ Ecolor). reflexivity. }
  bind_err Hp fig Efig; [discriminate|].
  inversion Hp; subst. unfold add_trace in Efig.
  destruct (_ || _)%bool; inversion Efig. reflexivity.
Qed.

Lemma plot_columns_err : forall (df : DataFrame I V) sel flt cols i st e,
  (forall col, In col cols -> ends_in sel col = true) ->
  plot_columns df sel flt cols i st = Error e -> is_not_in_list e = false.
Proof.
  intros df sel flt. induction cols as [|col rest IH]; intros i st e Hend Hp.
  - discriminate.
  - cbn [plot_columns] in Hp. bind_err Hp st1 E1.
    + eapply IH; [|exact Hp]. intros c Hc. apply Hend. right. exact Hc.
    + inversion Hp; subst. eapply plot_column_err; [|exact E1].
      apply Hend. left. reflexivity.
Qed.

Lemma make_figure_err : forall (df : DataFrame I V) sel flt e,
  (forall col, In col (df_names df) -> ends_in sel col = true) ->
  make_figure df sel flt = Error e -> is_not_in_list e = false.
Proof.
  intros df sel flt e Hend Hm. unfold make_figure in Hm. cbv zeta in Hm.
  bind_err Hm titles Et.
  2:{ inversion Hm; subst.
      refine (mapM_err subplot_title (fun e => is_not_in_list e = false) sel _ Et).
      intros a e' Ha. unfold subplot_title in Ha.
      destruct (dict_get label_dict a) eqn:Ed; cbn [bind] in Ha; [discriminate|].
      inversion Ha; subst. rewrite (dict_get_err _ _ Ed). reflexivity. }
  bind_err Hm fig0 Ef.
  2:{ inversion Hm; subst. rewrite make_subplots_spec in Ef.
      destruct (_ =? 0)%nat; [inversion Ef; reflexivity|].
      destruct (51 <? _)%nat; inversion Ef. reflexivity. }
  bind_err Hm st Es.
  2:{ inversion Hm; subst. eapply plot_columns_err; [exact Hend | exact Es]. }
  unfold finish_layout in Hm. destruct (st_i st); inversion Hm. reflexivity.
Qed.

(** C8: on the frame returned by [filter_df_cols df S], the row lookup of
    [make_figure] cannot fail: for every column, [type_selection.index]
    finds the column's last character and the row number lies in
    [1 .. len(S)]; neither [make_figure] nor [update_graph] raises the
    exception of a failed [index]. *)
Theorem row_lookup_never_fails : forall (DF tdf : DataFrame I V) (sel : list string),
  filter_df_cols DF sel = Ok tdf ->
  (forall col, In col (df_names tdf) ->
     exists val_type k,
       str_getitem col (-1) = Ok val_type /\
       list_index val_type sel = Ok k /\
       (1 <= k + 1 <= List.length sel)%nat)
  /\ (forall flt e, make_figure tdf sel flt = Error e -> is_not_in_list e = false)
  /\ (forall radio e, update_graph DF sel radio = Error e -> is_not_in_list e = false).
Proof.
  intros DF tdf sel Hf.
  destruct (filter_df_cols_names _ _ Hf) as [_ Hend].
  split; [|split].
  - intros col Hcol. apply ends_in_index. apply Hend. exact Hcol.
  - intros flt e He. eapply make_figure_err; [exact Hend | exact He].
  - intros radio e He. unfold update_graph in He. cbv zeta in He.
    rewrite Hf in He. cbn [bind] in He.
    eapply make_figure_err; [exact Hend | exact He].
Qed.

(** C5: [update_graph] draws, for every column of the restricted frame, the
    column's series untouched when the radio value is ['include'], and the
    series passed through [filter_outliers_from_series] for every other
    radio value (in particular ['remove']). *)
Theorem update_graph_filters_unless_include :
  forall (DF : DataFrame I V) (sel : list string) (radio : string) fig,
  update_graph DF sel radio = Ok fig ->
  exists tdf,
    filter_df_cols DF sel = Ok tdf /\
    Forall2 (fun c rt =>
               let y := combine (df_index tdf) (snd c) in
               let plotted := if String.eqb radio "include" then y
                              else filter_outliers_from_series y in
               sc_x (snd rt) = ser_index plotted /\
               sc_y (snd rt) = ser_values plotted)
            (df_columns tdf) (fig_data fig).
Proof.
  intros DF sel radio fig Hu. unfold update_graph in Hu. cbv zeta in Hu.
  bind_ok Hu tdf Et. exists tdf. split; [reflexivity|].
  destruct (make_figure_ok _ _ _ Hu) as [titles [_ [_ [_ [Htr _]]]]].
  eapply Forall2_impl; [|exact Htr].
  intros c rt Hc. cbv zeta.
  destruct Hc as [d [phase [vt [k [color Hc]]]]].
  destruct Hc as [_ [_ [_ [_ [_ [_ [Hx [Hy _]]]]]]]].
  unfold plotted_series in Hx, Hy.
  destruct (String.eqb radio "include"); split; assumption.
Qed.

(** C6: a returned figure holds exactly one trace per column of the frame,
    in column order; the trace's phase is the digit at index 1 of the
    column label and its colour depends on the phase alone: red for 1,
    blue for 2, green for 3. *)
Theorem one_trace_per_column_colored_by_phase :
  forall (df : DataFrame I V) (sel : list string) (flt : bool) fig,
  make_figure df sel flt = Ok fig ->
  Forall2 (fun c rt =>
             exists d phase,
               str_getitem (fst c) 1 = Ok d /\
               py_int d = Ok phase /\
               sc_name (snd rt) = ("phase " ++ py_str phase)%string /\
               ((phase = 1%nat /\ sc_line_color (snd rt) = "red") \/
                (phase = 2%nat /\ sc_line_color (snd rt) = "blue") \/
                (phase = 3%nat /\ sc_line_color (snd rt) = "green")))
          (df_columns df) (fig_data fig).
Proof.
  intros df sel flt fig Hm.
  destruct (make_figure_ok _ _ _ Hm) as [titles [_ [_ [_ [Htr _]]]]].
  eapply Forall2_impl; [|exact Htr].
  intros c rt [d [phase [vt [k [color Hc]]]]].
  destruct Hc as [Hd [Hphase [_ [_ [Hcolor [_ [_ [_ [Hline [Hname _]]]]]]]]]].
  exists d, phase. repeat split; try assumption.
  rewrite Hline.
  destruct phase as [|[|[|[|n]]]]; simpl in Hcolor; inversion Hcolor; auto.
Qed.

(** C10: with an empty type selection [update_graph] returns no figure.
    Whatever the frame and the radio value, it raises: [filter_df_cols]
    leaves no column (or raises on an empty label), so [make_figure] asks
    for a grid of zero rows and [make_subplots] refuses it; were the grid
    granted, the loop would not run and reading the unbound [i] for the
    layout height would raise. *)
Theorem update_graph_empty_selection_raises :
  forall (DF : DataFrame I V) (radio : string),
  (update_graph DF [] radio = Error (SubplotRows 0) \/
   update_graph DF [] radio = Error IndexError)
  /\ (filter_df_cols DF [] = Ok (mkDF (df_index DF) []) \/
      filter_df_cols DF [] = Error IndexError)
  /\ (forall flt, make_figure (mkDF (df_index DF) []) [] flt = Error (SubplotRows 0))
  /\ (forall flt fig,
        bind (plot_columns (mkDF (df_index DF) []) [] flt [] 0 (mkLoop fig [] None))
             finish_layout = Error (UnboundLocal "i")).
Proof.
  intros DF radio.
  assert (Hnone : forall names, filter (ends_in []) names = []).
  { induction names as [|n t IHn]; simpl; [reflexivity|].
    unfold ends_in at 1. destruct (last_char n); simpl; exact IHn. }
  assert (Hf : filter_df_cols DF [] =
               if forallb nonempty (df_names DF) then Ok (mkDF (df_index DF) [])
               else Error IndexError).
  { unfold filter_df_cols. rewrite select_cols_spec, Hnone.
    destruct (forallb nonempty (df_names DF)); reflexivity. }
  split; [|split; [|split]].
  - unfold update_graph. cbv zeta. rewrite Hf.
    destruct (forallb nonempty (df_names DF)); [left | right]; reflexivity.
  - rewrite Hf. destruct (forallb nonempty (df_names DF)); auto.
  - intros flt. reflexivity.
  - intros flt fig. reflexivity.
Qed.

End CallbackFacts.

(** ** Frames under assignment *)

Lemma filter_fuse : forall (A : Type) (p q : A -> bool) l,
  filter p (filter q l) = filter (fun x => q x && p x) l.
Proof.
  induction l as [|a l IH]; simpl; [reflexivity|].
  destruct (q a); simpl; [destruct (p a)|]; rewrite IH; reflexivity.
Qed.

Lemma existsb_filter : forall (A : Type) (p : A -> bool) l,
  existsb p l = match filter p l with [] => false | _ :: _ => true end.
Proof.
  induction l as [|a l IH]; simpl; [reflexivity|].
  destruct (p a); simpl; [reflexivity | exact IH].
Qed.

Section SetitemFacts.
Context {I A : Type}.

(** Assigning to [l] does not disturb a selection of columns by label
    that excludes [l]. *)
Lemma setitem_filter_other : forall (df : DataFrame I A) l d (q : string -> bool),
  q l = false ->
  filter (fun c => q (fst c)) (df_columns (df_setitem df l d)) =
  filter (fun c => q (fst c)) (df_columns df).
Proof.
  intros df l d q Hq. unfold df_setitem.
  destruct (existsb (has_label l) (df_columns df)); cbn [df_columns].
  - induction (df_columns df) as [|c cs IH]; simpl; [reflexivity|].
    destruct (has_label l c) eqn:Hc.
    + unfold has_label in Hc. apply String.eqb_eq in Hc.
      cbn [fst]. rewrite Hc, Hq. exact IH.
    + destruct (q (fst c)); rewrite IH; reflexivity.
  - rewrite filter_app. simpl. rewrite Hq. apply app_nil_r.
Qed.

(** After [df[l] = d], the columns labelled [l] all hold [d]. *)
Lemma setitem_filter_same : forall (df : DataFrame I A) l d,
  filter (has_label l) (df_columns (df_setitem df l d)) =
  match filter (has_label l) (df_columns df) with
  | [] => [(l, d)]
  | hit => map (fun c => (fst c, d)) hit
  end.
Proof.
  intros df l d. unfold df_setitem. rewrite existsb_filter.
  destruct (filter (has_label l) (df_columns df)) as [|h hs] eqn:Hf; cbn [df_columns].
  - rewrite filter_app, Hf. simpl. unfold has_label. cbn [fst].
    rewrite String.eqb_refl. reflexivity.
  - rewrite <- Hf. clear Hf.
    induction (df_columns df) as [|c cs IH]; simpl; [reflexivity|].
    destruct (has_label l c) eqn:Hc; simpl.
    + unfold has_label at 1. cbn [fst]. unfold has_label in Hc. rewrite Hc.
      rewrite IH. reflexivity.
    + rewrite Hc. exact IH.
Qed.

Lemma df_column_setitem_other : forall (df : DataFrame I A) l l' d,
  String.eqb l' l = false ->
  df_column (df_setitem df l' d) l = df_column df l.
Proof.
  intros df l l' d Hl. unfold df_column.
  change (has_label l) with (fun c : string * list A => (fun n => String.eqb n l) (fst c)).
  rewrite setitem_filter_other by exact Hl. reflexivity.
Qed.

Lemma df_column_setitem_same : forall (df : DataFrame I A) l d,
  (List.length (filter (has_label l) (df_columns df)) <= 1)%nat ->
  df_column (df_setitem df l d) l = Ok d.
Proof.
  intros df l d Hle. unfold df_column. rewrite setitem_filter_same.
  destruct (filter (has_label l) (df_columns df)) as [|[n x] [|c t]];
    simpl in *; try reflexivity. lia.
Qed.

Lemma df_column_count : forall (df : DataFrame I A) l d,
  df_column df l = Ok d ->
  exists n, filter (has_label l) (df_columns df) = [(n, d)].
Proof.
  intros df l d. unfold df_column.
  destruct (filter (has_label l) (df_columns df)) as [|[n x] [|c t]];
    intros Hd; inversion Hd; subst. exists n. reflexivity.
Qed.

Lemma df_column_length : forall (df : DataFrame I A) l d,
  df_wf df -> df_column df l = Ok d -> List.length d = List.length (df_index df).
Proof.
  intros df l d Hwf Hd. destruct (df_column_count _ _ Hd) as [n Hf].
  assert (Hin : In (n, d) (filter (has_label l) (df_columns df))).
  { rewrite Hf. left. reflexivity. }
  apply filter_In in Hin. destruct Hin as [Hin _].
  unfold df_wf in Hwf. rewrite Forall_forall in Hwf. exact (Hwf _ Hin).
Qed.

End SetitemFacts.

(** ** prep_datetime *)

Section PrepFacts.
Context {I Raw Stamp Delta : Type}.
Variable pd_Timedelta : Cell Raw Stamp Delta -> result Delta.
Variable pd_to_datetime :
  list (Cell Raw Stamp Delta) -> Cell Raw Stamp Delta -> result Stamp.
Variable stamp_add : Stamp -> Delta -> result Stamp.

Lemma cell_add_deltas : forall (stamps : list Stamp) (deltas : list Delta),
  mapM (cell_add stamp_add) (combine stamps (map (@CDelta Raw Stamp Delta) deltas)) =
  mapM (fun p => stamp_add (fst p) (snd p)) (combine stamps deltas).
Proof.
  induction stamps as [|t ts IH]; destruct deltas as [|d ds]; simpl;
    try reflexivity.
  unfold cell_add at 1. cbn [fst snd]. rewrite IH. reflexivity.
Qed.

Lemma setitem_index : forall (A : Type) (df : DataFrame I A) l d,
  df_index (df_setitem df l d) = df_index df.
Proof.
  intros A df l d. unfold df_setitem.
  destruct (existsb (has_label l) (df_columns df)); reflexivity.
Qed.

(** C4 (amended): on a frame with one ['day'] and one ['time'] column whose
    cells parse and whose parsed day plus parsed time of day is a
    representable timestamp in every row (the addition does not raise),
    [prep_datetime] returns the frame indexed by the parsed day plus the
    parsed time of each row; the ['day'] and ['time'] columns are dropped,
    a column already named ['datetime'] is dropped as well (the timestamps
    overwrite it before they become the index), and every other column
    keeps its place and its cells. *)
Theorem prep_datetime_index_and_columns :
  forall (df : DataFrame I (Cell Raw Stamp Delta)) days times deltas stamps sums,
  df_wf df ->
  df_column df "day" = Ok days ->
  df_column df "time" = Ok times ->
  (List.length (filter (has_label "datetime") (df_columns df)) <= 1)%nat ->
  mapM pd_Timedelta times = Ok deltas ->
  mapM (pd_to_datetime days) days = Ok stamps ->
  mapM (fun p => stamp_add (fst p) (snd p)) (combine stamps deltas) = Ok sums ->
  prep_datetime pd_Timedelta pd_to_datetime stamp_add df =
  Ok (mkDF (map CStamp sums)
           (filter (fun c => keeps_label (fst c)) (df_columns df))).
Proof.
  intros df days times deltas stamps sums Hwf Hday Htime Hdt Hd Hs Ha.
  pose proof (df_column_length _ Hwf Hday) as Ldays.
  pose proof (df_column_length _ Hwf Htime) as Ltimes.
  pose proof (mapM_length _ _ Hd) as Ldeltas.
  destruct (df_column_count _ _ Hday) as [nd Fday].
  destruct (df_column_count _ _ Htime) as [nt Ftime].
  unfold prep_datetime.
  unfold df_getitem at 1. rewrite Htime. cbn [bind].
  rewrite values_combine by exact Ltimes.
  rewrite Hd. cbn [bind]. cbv zeta.
  set (df1 := df_setitem df "time" (map CDelta deltas)).
  assert (Hday1 : df_column df1 "day" = Ok days).
  { unfold df1. rewrite df_column_setitem_other; [exact Hday | reflexivity]. }
  assert (Htime1 : df_column df1 "time" = Ok (map CDelta deltas)).
  { unfold df1. apply df_column_setitem_same. rewrite Ftime. simpl. lia. }
  assert (Hidx1 : df_index df1 = df_index df) by apply setitem_index.
  unfold df_getitem. rewrite Hday1. cbn [bind]. rewrite Hidx1.
  rewrite values_combine by exact Ldays.
  rewrite Hs. cbn [bind]. rewrite Htime1. cbn [bind].
  rewrite values_combine by (rewrite length_map; congruence).
  rewrite cell_add_deltas, Ha. cbn [bind].
  set (df2 := df_setitem df1 "datetime" (map CStamp sums)).
  assert (Fother : forall q : string -> bool,
             q "time" = false -> q "datetime" = false ->
             filter (fun c => q (fst c)) (df_columns df2) =
             filter (fun c => q (fst c)) (df_columns df)).
  { intros q Qt Qd. unfold df2, df1.
    rewrite setitem_filter_other by exact Qd.
    apply setitem_filter_other. exact Qt. }
  assert (Hdt2 : df_column df2 "datetime" = Ok (map CStamp sums)).
  { unfold df2. apply df_column_setitem_same. unfold df1.
    change (has_label "datetime")
      with (fun c : string * list (Cell Raw Stamp Delta) =>
              (fun n => String.eqb n "datetime") (fst c)).
    rewrite setitem_filter_other by reflexivity. exact Hdt. }
  unfold df_set_index. rewrite Hdt2. cbn [bind].
  unfold df_drop_columns. cbn [df_columns df_index].
  assert (Eday : existsb (has_label "day")
                   (filter (fun c => negb (has_label "datetime" c)) (df_columns df2))
                 = true).
  { rewrite existsb_filter, filter_fuse.
    rewrite filter_ext with (g := fun c => (fun n => String.eqb n "day") (fst c)).
    - pose proof (Fother (fun n => String.eqb n "day") eq_refl eq_refl) as Hq.
      cbv beta in Hq. rewrite Hq.
      fold (@has_label (list (Cell Raw Stamp Delta)) "day").
      rewrite Fday. reflexivity.
    - intros c. unfold has_label.
      destruct (String.eqb (fst c) "day") eqn:Hc; [|apply andb_false_r].
      apply String.eqb_eq in Hc. rewrite Hc. reflexivity. }
  assert (Etime : existsb (has_label "time")
                    (filter (fun c => negb (has_label "datetime" c)) (df_columns df2))
                  = true).
  { rewrite existsb_filter, filter_fuse.
    rewrite filter_ext with (g := fun c => (fun n => String.eqb n "time") (fst c)).
    - unfold df2.
      pose proof (setitem_filter_other df1 "datetime" (map CStamp sums)
                    (fun n => String.eqb n "time") eq_refl) as Hq.
      cbv beta in Hq. rewrite Hq.
      fold (@has_label (list (Cell Raw Stamp Delta)) "time").
      unfold df1. rewrite setitem_filter_same, Ftime. reflexivity.
    - intros c. unfold has_label.
      destruct (String.eqb (fst c) "time") eqn:Hc; [|apply andb_false_r].
      apply String.eqb_eq in Hc. rewrite Hc. reflexivity. }
  cbn [find]. rewrite Eday, Etime. cbn [negb].
  f_equal. f_equal.
  rewrite filter_fuse.
  rewrite filter_ext with (g := fun c => keeps_label (fst c)).
  - apply Fother; reflexivity.
  - intros c. unfold keeps_label, has_label, py_in. cbn [existsb].
    rewrite !(String.eqb_sym (fst c)).
    destruct (String.eqb "day" (fst c)), (String.eqb "time" (fst c)),
      (String.eqb "datetime" (fst c)); reflexivity.
Qed.

End PrepFacts.

(** ** The grid and the titles of a figure *)

Lemma Forall2_Forall_r : forall (A B : Type) (R : A -> B -> Prop) (P : B -> Prop) l l',
  (forall a b, R a b -> P b) -> Forall2 R l l' -> Forall P l'.
Proof.
  intros A B R P l l' HRP HF. induction HF; constructor; eauto.
Qed.

(** The grid of a returned figure has one row per column of the frame. *)
Lemma make_figure_rows :
  forall (I V : Type) (N : Numeric V) (df : DataFrame I V) sel flt fig,
  make_figure df sel flt = Ok fig ->
  fig_rows fig = List.length (df_columns df)
  /\ Forall (fun rt => (1 <= fst rt <= List.length sel)%nat) (fig_data fig).
Proof.
  intros I V N df sel flt fig Hm.
  destruct (make_figure_ok _ _ _ Hm) as [titles [_ [Hrows [_ [Htr _]]]]].
  split; [exact Hrows|].
  eapply Forall2_Forall_r; [|exact Htr]. intros c rt Hc. cbv beta.
  destruct Hc as [d [phase [vt [k [color Hc]]]]].
  destruct Hc as [_ [_ [_ [Hk [_ [Hrow _]]]]]].
  rewrite Hrow.
  assert (Hlt : (k < List.length sel)%nat).
  { clear - Hk. revert k Hk. induction sel as [|y t IHs]; simpl; intros k Hk.
    - discriminate.
    - destruct (String.eqb y vt).
      + inversion Hk. lia.
      + destruct (list_index vt t) as [k'|]; cbn [bind] in Hk; [|discriminate].
        inversion Hk. specialize (IHs k' eq_refl). lia. }
  lia.
Qed.

(** C2: on the three phase columns of one signal type, with that one type
    selected, [make_figure] returns a figure whose grid has three rows, one
    per column of the frame, although a single type is selected; the three
    traces all sit in row 1 and one title is annotated. *)
Theorem make_figure_grid_has_a_row_per_column :
  make_figure Samples.power_only ["p"] false = Ok Samples.figure_power_only
  /\ fig_rows Samples.figure_power_only = 3%nat
  /\ List.length (df_columns Samples.power_only) = 3%nat
  /\ List.length ["p"] = 1%nat
  /\ map fst (fig_data Samples.figure_power_only) = [1; 1; 1]%nat
  /\ fig_titles Samples.figure_power_only = ["real power (p)"].
Proof.
  repeat split; vm_compute; reflexivity.
Qed.

(** C7 (amended): the signal types are presented under the names of
    [label_dict]: real power for p, imaginary power for q, current for i,
    voltage for v.  These are the labels of the dropdown options, and the
    subplot titles are the same names followed by the code in brackets;
    a returned figure shows the titles of the selection, one per grid
    row. *)
Theorem signal_type_names :
  dropdown_options =
    [mkOption "real power" "p"; mkOption "imaginary power" "q";
     mkOption "current" "i"; mkOption "voltage" "v"]
  /\ mapM subplot_title ["p"; "q"; "i"; "v"] =
       Ok ["real power (p)"; "imaginary power (q)"; "current (i)"; "voltage (v)"]
  /\ forall (I V : Type) (N : Numeric V) (df : DataFrame I V) sel flt fig,
       make_figure df sel flt = Ok fig ->
       exists titles,
         mapM subplot_title sel = Ok titles /\
         fig_titles fig = firstn (List.length (df_columns df)) titles.
Proof.
  split; [reflexivity|]. split; [reflexivity|].
  intros I V N df sel flt fig Hm.
  destruct (make_figure_ok _ _ _ Hm) as [titles [Ht [_ [Hfirst _]]]].
  exists titles. split; assumption.
Qed.

(** ** The properties on the sample frames *)

Lemma label_dict_names_counterexample :
  dict_get label_dict "p" = Ok "real power"
  /\ "real power" <> "power"
  /\ dict_get label_dict "q" = Ok "imaginary power"
  /\ "imaginary power" <> "reactive power".
Proof.
  repeat split; try reflexivity; discriminate.
Qed.

Lemma signal_type_names_witness :
  exists titles,
    mapM subplot_title ["q"; "p"] = Ok titles /\
    fig_titles Samples.figure_remove =
      firstn (List.length (df_columns Samples.readings_pq)) titles.
Proof.
  destruct signal_type_names as [_ [_ Hfig]].
  apply (Hfig nat float Float64.numeric Samples.readings_pq ["q"; "p"] true).
  vm_compute. reflexivity.
Defined.

(** An empty label makes [filter_df_cols] raise, and a repeated label is
    returned once per request. *)
Lemma filter_df_cols_counterexample :
  filter_df_cols Samples.unnamed_column ["p"] = Error IndexError
  /\ filter_df_cols Samples.repeated_label ["p"] =
       Ok (mkDF [0%nat] [("a_p", [1%Z]); ("a_p", [2%Z]);
                         ("a_p", [1%Z]); ("a_p", [2%Z])]).
Proof.
  split; reflexivity.
Qed.

Lemma filter_df_cols_restricts_witness :
  filter_df_cols Samples.readings ["p"] =
  Ok (mkDF (df_index Samples.readings)
           (filter (fun c => ends_in ["p"] (fst c)) (df_columns Samples.readings))).
Proof.
  apply filter_df_cols_restricts.
  - unfold df_names. simpl. repeat constructor; simpl; intuition discriminate.
  - reflexivity.
Defined.

(** A column already named ['datetime'] does not survive [prep_datetime];
    a day and a time that both parse but add up past the last timestamp
    make it raise, and so does a time cell that does not parse. *)
Lemma prep_datetime_counterexample :
  prep_datetime Clock.Timedelta Clock.to_datetime Clock.add
                Samples.raw_rows_with_datetime =
    Ok (mkDF [CStamp 1583020800000000000%Z; CStamp 1583070310000000000%Z]
             [("L1_p", [CRaw (Clock.Number 1.5%float); CRaw (Clock.Number 2.5%float)])])
  /\ df_column Samples.raw_rows_with_datetime "datetime" =
       Ok [CRaw (Clock.Text "a"); CRaw (Clock.Text "b")]
  /\ Clock.to_datetime [CRaw (Clock.Text "2262-04-11")] (CRaw (Clock.Text "2262-04-11")) =
       Ok 9223286400000000000%Z
  /\ Clock.Timedelta (CRaw (Clock.Text "23:59:59")) = Ok 86399000000000%Z
  /\ prep_datetime Clock.Timedelta Clock.to_datetime Clock.add
                   Samples.raw_rows_out_of_bounds =
       Error (LibraryError "Out of bounds nanosecond timestamp")
  /\ prep_datetime Clock.Timedelta Clock.to_datetime Clock.add
                   Samples.raw_rows_unparsed =
       Error (LibraryError "unit abbreviation w/o a number").
Proof.
  repeat split; vm_compute; reflexivity.
Qed.

Lemma prep_datetime_index_and_columns_witness :
  prep_datetime Clock.Timedelta Clock.to_datetime Clock.add Samples.raw_rows =
  Ok (mkDF (map CStamp [1583020800000000000%Z; 1583070310000000000%Z])
           (filter (fun c => keeps_label (fst c)) (df_columns Samples.raw_rows))).
Proof.
  eapply (prep_datetime_index_and_columns Clock.Timedelta Clock.to_datetime
            Clock.add (df := Samples.raw_rows)).
  - repeat constructor.
  - reflexivity.
  - reflexivity.
  - simpl. lia.
  - reflexivity.
  - reflexivity.
  - reflexivity.
Defined.

Lemma update_graph_filters_unless_include_witness :
  exists tdf,
    filter_df_cols Samples.readings ["q"; "p"] = Ok tdf /\
    Forall2 (fun c rt =>
               let y := combine (df_index tdf) (snd c) in
               let plotted := if String.eqb "remove" "include" then y
                              else filter_outliers_from_series y in
               sc_x (snd rt) = ser_index plotted /\
               sc_y (snd rt) = ser_values plotted)
            (df_columns tdf) (fig_data Samples.figure_remove).
Proof.
  apply (update_graph_filters_unless_include Samples.readings ["q"; "p"] "remove").
  vm_compute. reflexivity.
Defined.

Lemma one_trace_per_column_colored_by_phase_witness :
  Forall2 (fun c rt =>
             exists d phase,
               str_getitem (fst c) 1 = Ok d /\
               py_int d = Ok phase /\
               sc_name (snd rt) = ("phase " ++ py_str phase)%string /\
               ((phase = 1%nat /\ sc_line_color (snd rt) = "red") \/
                (phase = 2%nat /\ sc_line_color (snd rt) = "blue") \/
                (phase = 3%nat /\ sc_line_color (snd rt) = "green")))
          (df_columns Samples.power_only) (fig_data Samples.figure_power_only).
Proof.
  apply (one_trace_per_column_colored_by_phase Samples.power_only ["p"] false).
  vm_compute. reflexivity.
Defined.

Lemma row_lookup_never_fails_witness :
  (forall col, In col (df_names Samples.readings_pq) ->
     exists val_type k,
       str_getitem col (-1) = Ok val_type /\
       list_index val_type ["p"; "q"] = Ok k /\
       (1 <= k + 1 <= List.length ["p"; "q"])%nat)
  /\ (forall flt e, make_figure Samples.readings_pq ["p"; "q"] flt = Error e ->
                    is_not_in_list e = false)
  /\ (forall radio e, update_graph Samples.readings ["p"; "q"] radio = Error e ->
                      is_not_in_list e = false).
Proof.
  apply (row_lookup_never_fails Samples.readings (tdf := Samples.readings_pq)).
  vm_compute. reflexivity.
Defined.

(** ** Worked examples *)

Example str_getitem_examples :
  str_getitem "L1_p" 1 = Ok "1"
  /\ str_getitem "L1_p" (-1) = Ok "p"
  /\ str_getitem "" (-1) = Error IndexError
  /\ str_getitem "p" 1 = Error IndexError.
Proof. repeat split; reflexivity. Qed.

(** The reading of 100 among eleven readings of 1 is dropped. *)
Example outlier_dropped :
  filter_outliers_from_series
    (combine (seq 0 12) [1; 1; 1; 1; 1; 1; 1; 1; 1; 1; 1; 100]%float) =
  combine (seq 0 11) [1; 1; 1; 1; 1; 1; 1; 1; 1; 1; 1]%float.
Proof. vm_compute. reflexivity. Qed.

(** A series that is zero throughout starts hidden, and each phase enters
    the legend once. *)
Example idle_phase_starts_hidden :
  map (fun rt => (sc_name (snd rt), sc_visible (snd rt), sc_showlegend (snd rt)))
      (fig_data Samples.figure_remove) =
  [("phase 1", VisTrue, true); ("phase 2", LegendOnly, true);
   ("phase 3", VisTrue, true); ("phase 1", VisTrue, false)].
Proof. vm_compute. reflexivity. Qed.

(** The grid follows the number of columns: with fewer columns than
    selected types a trace can ask for a row that does not exist. *)
Example fewer_columns_than_types :
  update_graph (mkDF [0%nat] [("L1_q", [1%float])]) ["p"; "q"] "include" =
  Error (GridRange 2).
Proof. vm_compute. reflexivity. Qed.

Example empty_selection :
  update_graph Samples.readings [] "remove" = Error (SubplotRows 0).
Proof. vm_compute. reflexivity. Qed.

(** * Further properties *)

(** ** filter_df_cols: failure, soundness, composition *)

Lemma forallb_nonempty_iff : forall names,
  forallb nonempty names = true <-> ~ In EmptyString names.
Proof.
  induction names as [|n t IH]; simpl.
  - split; [intros _ [] | reflexivity].
  - rewrite andb_true_iff, IH. destruct n as [|a n']; simpl.
    + split; [intros [Hf _]; discriminate | intros Hn; exfalso; apply Hn; left; reflexivity].
    + split.
      * intros [_ Ht] [Heq | Hin]; [discriminate | exact (Ht Hin)].
      * intros Hn. split; [reflexivity|]. intros Hin. apply Hn. right. exact Hin.
Qed.

Lemma filter_has_label_nonempty : forall (A : Type) (cols : list (string * list A)) l,
  In l (map fst cols) -> filter (has_label l) cols <> [].
Proof.
  intros A cols l Hin. apply in_map_iff in Hin. destruct Hin as [c [Hl Hc]].
  intros Hnil.
  assert (Hf : In c (filter (has_label l) cols)).
  { apply filter_In. split; [exact Hc|]. unfold has_label. rewrite Hl.
    apply String.eqb_refl. }
  rewrite Hnil in Hf. exact Hf.
Qed.

(** [loc] with labels taken from the frame never raises. *)
Lemma loc_columns_total : forall (A : Type) (cols : list (string * list A)) labels,
  (forall l, In l labels -> In l (map fst cols)) ->
  exists out, loc_columns cols labels = Ok out.
Proof.
  intros A cols. induction labels as [|l t IH]; simpl; intros Hin.
  - eexists. reflexivity.
  - destruct (IH (fun x Hx => Hin x (or_intror Hx))) as [rest Hrest].
    pose proof (filter_has_label_nonempty cols l (Hin l (or_introl eq_refl))) as Hne.
    destruct (filter (has_label l) cols) as [|h hs]; [contradiction|].
    rewrite Hrest. eexists. reflexivity.
Qed.

Lemma loc_columns_in : forall (A : Type) (cols : list (string * list A)) labels out,
  loc_columns cols labels = Ok out -> forall c, In c out -> In c cols.
Proof.
  intros A cols. induction labels as [|l t IH]; simpl; intros out Hloc c Hc.
  - inversion Hloc; subst. contradiction.
  - destruct (filter (has_label l) cols) as [|h hs] eqn:Hf; [discriminate|].
    destruct (loc_columns cols t) as [rest|] eqn:Hrest; cbn [bind] in Hloc;
      [|discriminate].
    inversion Hloc; subst out.
    change (In c ((h :: hs) ++ rest)) in Hc.
    apply in_app_or in Hc. destruct Hc as [Hc | Hc].
    + rewrite <- Hf in Hc. apply filter_In in Hc. tauto.
    + eapply IH; [reflexivity | exact Hc].
Qed.

Lemma loc_columns_complete : forall (A : Type) (cols : list (string * list A)) labels out,
  loc_columns cols labels = Ok out ->
  forall c, In c cols -> In (fst c) labels -> In c out.
Proof.
  intros A cols. induction labels as [|l t IH]; simpl; intros out Hloc c Hc Hl.
  - contradiction.
  - destruct (filter (has_label l) cols) as [|h hs] eqn:Hf; [discriminate|].
    destruct (loc_columns cols t) as [rest|] eqn:Hrest; cbn [bind] in Hloc;
      [|discriminate].
    inversion Hloc; subst out.
    change (In c ((h :: hs) ++ rest)). apply in_or_app.
    destruct (String.eqb (fst c) l) eqn:Hcl.
    + left. rewrite <- Hf. apply filter_In. split; [exact Hc | exact Hcl].
    + right. eapply IH; [reflexivity | exact Hc |].
      destruct Hl as [Hl | Hl]; [|exact Hl].
      subst l. rewrite String.eqb_refl in Hcl. discriminate.
Qed.

(** The function in one equation: the loop raises on an empty label, and
    otherwise [loc] is asked for the labels ending in a selected code. *)
Lemma filter_df_cols_unfold : forall (I A : Type) (df : DataFrame I A) sel,
  filter_df_cols df sel =
  if forallb nonempty (df_names df)
  then df_loc_cols df (filter (ends_in sel) (df_names df))
  else Error IndexError.
Proof.
  intros I A df sel. unfold filter_df_cols. rewrite select_cols_spec.
  destruct (forallb nonempty (df_names df)); reflexivity.
Qed.

Lemma filter_df_cols_run : forall (I A : Type) (df : DataFrame I A) sel,
  NoDup (df_names df) -> forallb nonempty (df_names df) = true ->
  filter_df_cols df sel = Ok (df_restrict df sel).
Proof.
  intros I A df sel Hnd Hne. rewrite filter_df_cols_unfold, Hne.
  unfold df_loc_cols, df_names, df_restrict.
  rewrite <- (map_fst_filter (ends_in sel)).
  rewrite loc_columns_unique; [reflexivity | exact Hnd |].
  intros c Hc. apply filter_In in Hc. tauto.
Qed.

Lemma ends_in_ext : forall sel sel' name,
  (forall x, In x sel <-> In x sel') -> ends_in sel name = ends_in sel' name.
Proof.
  intros sel sel' name Hsame. unfold ends_in.
  destruct (last_char name) as [c|]; [|reflexivity].
  destruct (py_in (String c EmptyString) sel) eqn:H1;
    destruct (py_in (String c EmptyString) sel') eqn:H2; try reflexivity.
  - apply py_in_In, Hsame, py_in_In in H1. congruence.
  - apply py_in_In, Hsame, py_in_In in H2. congruence.
Qed.

Lemma ends_in_nonempty : forall sel name, ends_in sel name = true -> nonempty name = true.
Proof.
  intros sel [|a n]; unfold ends_in; simpl; [discriminate | reflexivity].
Qed.

Lemma forallb_filter_weaken : forall (A : Type) (p q : A -> bool) l,
  forallb p l = true -> forallb p (filter q l) = true.
Proof.
  induction l as [|a l IH]; simpl; [reflexivity|].
  rewrite andb_true_iff. intros [Ha Hl]. destruct (q a); simpl; [rewrite Ha|]; auto.
Qed.

Section FilterColsMore.
Context {I A : Type}.

(** X1: [filter_df_cols] raises exactly when some column label is the
    empty string, whatever the selection, and the exception is then the
    [IndexError] of [col[-1]]; on every other frame (repeated labels
    included) it returns a frame. *)
Theorem filter_df_cols_raises_iff_empty_label :
  forall (df : DataFrame I A) (sel : list string),
  (In EmptyString (df_names df) -> filter_df_cols df sel = Error IndexError)
  /\ (~ In EmptyString (df_names df) -> exists tdf, filter_df_cols df sel = Ok tdf).
Proof.
  intros df sel. rewrite filter_df_cols_unfold. split.
  - intros Hin. destruct (forallb nonempty (df_names df)) eqn:Hne; [|reflexivity].
    apply forallb_nonempty_iff in Hne. contradiction.
  - intros Hnot. apply forallb_nonempty_iff in Hnot. rewrite Hnot.
    unfold df_loc_cols.
    destruct (loc_columns_total (df_columns df) (filter (ends_in sel) (df_names df)))
      as [out Hout].
    { intros l Hl. apply filter_In in Hl. destruct Hl as [Hl _]. exact Hl. }
    rewrite Hout. eexists. reflexivity.
Qed.

(** X2: whenever [filter_df_cols] returns, the row index is unchanged, the
    returned columns are columns of the input (label and cells) whose
    label ends in a selected code, no such column of the input is missing,
    and a frame with one cell per row and column stays so. *)
Theorem filter_df_cols_sound_and_complete :
  forall (df tdf : DataFrame I A) (sel : list string),
  filter_df_cols df sel = Ok tdf ->
  df_index tdf = df_index df
  /\ (forall c, In c (df_columns tdf) <->
                In c (df_columns df) /\ ends_in sel (fst c) = true)
  /\ (df_wf df -> df_wf tdf).
Proof.
  intros df tdf sel Hf.
  destruct (filter_df_cols_names _ _ Hf) as [Hidx Hend].
  rewrite filter_df_cols_unfold in Hf.
  destruct (forallb nonempty (df_names df)); [|discriminate].
  unfold df_loc_cols in Hf.
  destruct (loc_columns (df_columns df) (filter (ends_in sel) (df_names df)))
    as [cols|] eqn:Hloc; cbn [bind] in Hf; [|discriminate].
  inversion Hf; subst tdf; clear Hf. cbn [df_index df_columns] in *.
  assert (Hsound : forall c, In c cols -> In c (df_columns df)).
  { intros c Hc. eapply loc_columns_in; eassumption. }
  split; [reflexivity|]. split.
  - intros c. split.
    + intros Hc. split; [apply Hsound; exact Hc|].
      apply Hend. unfold df_names. cbn [df_columns]. apply in_map. exact Hc.
    + intros [Hc He]. eapply loc_columns_complete; [exact Hloc | exact Hc |].
      apply filter_In. split; [|exact He]. unfold df_names. apply in_map. exact Hc.
  - unfold df_wf. cbn [df_index df_columns]. rewrite !Forall_forall.
    intros Hwf c Hc. apply Hwf, Hsound, Hc.
Qed.

(** X3: the result of [filter_df_cols] depends on the selection only
    through its members: reordering the selected codes or repeating one
    changes nothing (only [make_figure] looks at their order). *)
Theorem filter_df_cols_selection_as_set :
  forall (df : DataFrame I A) (sel sel' : list string),
  (forall x, In x sel <-> In x sel') ->
  filter_df_cols df sel = filter_df_cols df sel'.
Proof.
  intros df sel sel' Hsame. rewrite !filter_df_cols_unfold.
  rewrite (filter_ext (ends_in sel) (ends_in sel')); [reflexivity|].
  intros name. apply ends_in_ext. exact Hsame.
Qed.

(** X4: on a frame with non-empty, pairwise distinct labels, filtering by
    [sel] and then by [sel'] keeps exactly the columns whose last character
    is in both selections; in particular filtering twice by the same
    selection is the same as filtering once. *)
Theorem filter_df_cols_compose :
  forall (df tdf : DataFrame I A) (sel sel' : list string),
  NoDup (df_names df) ->
  forallb nonempty (df_names df) = true ->
  filter_df_cols df sel = Ok tdf ->
  filter_df_cols tdf sel' =
    Ok (mkDF (df_index df)
             (filter (fun c => ends_in sel (fst c) && ends_in sel' (fst c))
                     (df_columns df)))
  /\ filter_df_cols tdf sel = Ok tdf.
Proof.
  intros df tdf sel sel' Hnd Hne Hf.
  rewrite (filter_df_cols_run df sel Hnd Hne) in Hf. inversion Hf; subst tdf; clear Hf.
  assert (Hnd' : NoDup (df_names (df_restrict df sel))).
  { unfold df_names, df_restrict. cbn [df_columns].
    rewrite (map_fst_filter (ends_in sel)). apply NoDup_filter. exact Hnd. }
  assert (Hne' : forallb nonempty (df_names (df_restrict df sel)) = true).
  { unfold df_names, df_restrict. cbn [df_columns].
    rewrite (map_fst_filter (ends_in sel)). apply forallb_filter_weaken. exact Hne. }
  rewrite !filter_df_cols_run by assumption.
  unfold df_restrict. cbn [df_index df_columns]. rewrite !filter_fuse. split.
  - reflexivity.
  - do 2 f_equal. apply filter_ext. intros c. apply andb_diag.
Qed.

(** X5: when every label of a frame with pairwise distinct labels ends in
    a selected code, [filter_df_cols] returns the frame itself: the
    dropdown's initial value, all four codes, shows every column of a
    frame whose labels end in p, q, i or v. *)
Theorem filter_df_cols_keeps_all :
  forall (df : DataFrame I A) (sel : list string),
  NoDup (df_names df) ->
  (forall name, In name (df_names df) -> ends_in sel name = true) ->
  filter_df_cols df sel = Ok df.
Proof.
  intros df sel Hnd Hall.
  assert (Hne : forallb nonempty (df_names df) = true).
  { apply forallb_forall. intros n Hn. eapply ends_in_nonempty. apply Hall. exact Hn. }
  rewrite (filter_df_cols_run df sel Hnd Hne). unfold df_restrict.
  destruct df as [idx cols]. cbn [df_index df_columns]. f_equal. f_equal.
  unfold df_names in Hall. cbn [df_columns] in Hall. clear Hnd Hne.
  induction cols as [|c cols IH]; simpl; [reflexivity|].
  rewrite (Hall (fst c)) by (left; reflexivity).
  f_equal. apply IH. intros n Hn. apply Hall. right. exact Hn.
Qed.

End FilterColsMore.

(** ** make_figure: when a figure is returned *)

Lemma is_ok_bind : forall (A B : Type) (r : result A) (k : A -> result B),
  is_ok (bind r k) = match r with Ok a => is_ok (k a) | Error _ => false end.
Proof. intros A B [a|e] k; reflexivity. Qed.

Lemma is_ok_true : forall (A : Type) (r : result A),
  is_ok r = true <-> exists a, r = Ok a.
Proof.
  intros A [a|e]; simpl; split; try discriminate; eauto.
  intros [a Ha]. discriminate.
Qed.

Lemma mapM_is_ok : forall (A B : Type) (f : A -> result B) l,
  is_ok (mapM f l) = forallb (fun a => is_ok (f a)) l.
Proof.
  induction l as [|a t IH]; simpl; [reflexivity|].
  destruct (f a); simpl; [|reflexivity].
  rewrite <- IH. destruct (mapM f t); reflexivity.
Qed.

Lemma dict_get_is_ok : forall (A : Type) (d : list (string * A)) k,
  is_ok (dict_get d k) = py_in k (map fst d).
Proof.
  induction d as [|[k' v] t IH]; intros k; simpl; [reflexivity|].
  rewrite (String.eqb_sym k k'). destruct (String.eqb k' k); simpl; auto.
Qed.

Lemma subplot_title_is_ok : forall sym, is_ok (subplot_title sym) = known_code sym.
Proof.
  intros sym. unfold subplot_title, known_code. rewrite is_ok_bind.
  rewrite <- dict_get_is_ok. destruct (dict_get label_dict sym); reflexivity.
Qed.

(** [s[1]] is the second character, and raises on shorter strings. *)
Lemma str_getitem_1 : forall s,
  str_getitem s 1 =
  match String.get 1 s with
  | Some c => Ok (String c EmptyString)
  | None => Error IndexError
  end.
Proof.
  intros [|a [|b t]]; try reflexivity.
  unfold str_getitem. cbv zeta. replace (1 <? 0)%Z with false by reflexivity.
  replace (Z.of_nat (String.length (String a (String b t))) <=? 1)%Z with false.
  - reflexivity.
  - symmetry. apply Z.leb_gt. simpl String.length. lia.
Qed.

(** A one-character string is a phase with a colour exactly when it is
    one of the digits 1, 2, 3. *)
Lemma phase_of_char : forall c,
  match py_int (String c EmptyString) with
  | Ok phase => is_ok (nat_dict_get color_dict phase)
  | Error _ => false
  end = (Ascii.eqb c "1" || Ascii.eqb c "2" || Ascii.eqb c "3")%bool.
Proof.
  intros c. destruct c as [[] [] [] [] [] [] [] []]; reflexivity.
Qed.

Lemma has_phase_spec : forall name,
  match str_getitem name 1 with
  | Ok d => match py_int d with
            | Ok phase => is_ok (nat_dict_get color_dict phase)
            | Error _ => false
            end
  | Error _ => false
  end = has_phase name.
Proof.
  intros name. rewrite str_getitem_1. unfold has_phase.
  destruct (String.get 1 name) as [c|]; [apply phase_of_char | reflexivity].
Qed.

Lemma row_of_spec : forall sel name,
  match str_getitem name (-1) with
  | Ok val_type => match list_index val_type sel with
                   | Ok k => Some k
                   | Error _ => None
                   end
  | Error _ => None
  end = row_of sel name.
Proof.
  intros sel name. rewrite str_getitem_last. unfold row_of.
  destruct (last_char name); reflexivity.
Qed.

Lemma filter_has_label_count : forall (A : Type) (cols : list (string * list A)) l,
  List.length (filter (has_label l) cols) = label_count l (map fst cols).
Proof.
  induction cols as [|c cols IH]; intros l; simpl; [reflexivity|].
  unfold has_label at 1. destruct (String.eqb (fst c) l); simpl; rewrite IH; reflexivity.
Qed.

Lemma df_column_is_ok : forall (I A : Type) (df : DataFrame I A) l,
  is_ok (df_column df l) = (label_count l (df_names df) =? 1)%nat.
Proof.
  intros I A df l. unfold df_names. rewrite <- filter_has_label_count.
  unfold df_column.
  destruct (filter (has_label l) (df_columns df)) as [|[n d] [|c t]]; reflexivity.
Qed.

Lemma label_count_zero : forall l names,
  (label_count l names =? 0)%nat = negb (py_in l names).
Proof.
  induction names as [|n t IH]; simpl; [reflexivity|].
  rewrite (String.eqb_sym l n). destruct (String.eqb n l); simpl; [reflexivity | exact IH].
Qed.

Lemma forallb_ext_members : forall (A : Type) (p q : A -> bool) l,
  (forall a, In a l -> p a = q a) -> forallb p l = forallb q l.
Proof.
  induction l as [|a l IH]; simpl; intros Hpq; [reflexivity|].
  rewrite (Hpq a) by (left; reflexivity).
  rewrite IH by (intros b Hb; apply Hpq; right; exact Hb). reflexivity.
Qed.

Lemma forallb_unique_nodupb : forall names,
  forallb (fun l => (label_count l names =? 1)%nat) names = nodupb names.
Proof.
  induction names as [|x t IH]; simpl; [reflexivity|].
  rewrite String.eqb_refl. simpl. change (S (label_count x t) =? 1)%nat
    with (label_count x t =? 0)%nat.
  rewrite label_count_zero. destruct (py_in x t) eqn:Hx; simpl; [reflexivity|].
  rewrite <- IH. apply forallb_ext_members. intros l Hl.
  destruct (String.eqb x l) eqn:Hxl; [|reflexivity].
  apply String.eqb_eq in Hxl. subst l. apply py_in_In in Hl. congruence.
Qed.

Lemma nodupb_NoDup : forall names, nodupb names = true <-> NoDup names.
Proof.
  induction names as [|x t IH]; simpl.
  - split; [constructor | reflexivity].
  - rewrite andb_true_iff, negb_true_iff, IH. split.
    + intros [Hx Ht]. constructor; [|exact Ht].
      intros Hin. apply py_in_In in Hin. congruence.
    + intros Hnd. inversion Hnd as [|? ? Hx Ht]; subst. split; [|exact Ht].
      destruct (py_in x t) eqn:Hp; [|reflexivity].
      apply py_in_In in Hp. contradiction.
Qed.

Lemma forallb_andb : forall (A : Type) (p q : A -> bool) l,
  forallb (fun a => p a && q a) l = forallb p l && forallb q l.
Proof.
  induction l as [|a l IH]; simpl; [reflexivity|].
  rewrite IH. destruct (p a), (q a), (forallb p l), (forallb q l); reflexivity.
Qed.

Section MakeFigureReturns.
Context {I V : Type} `{Numeric V}.

(** One iteration returns exactly when the label is unique in the frame
    and drawable in the current grid. *)
Lemma plot_column_is_ok : forall (df : DataFrame I V) sel flt st i col,
  is_ok (plot_column df sel flt st i col) =
  (label_count col (df_names df) =? 1)%nat && label_ok sel (fig_rows (st_fig st)) col.
Proof.
  intros df sel flt st i col. rewrite <- df_column_is_ok.
  unfold plot_column, df_getitem, label_ok.
  rewrite <- has_phase_spec, <- row_of_spec.
  destruct (df_column df col) as [data|e]; cbn [bind is_ok andb]; [|reflexivity].
  cbv beta zeta.
  destruct (str_getitem col 1) as [d|e1]; cbn [bind is_ok andb]; [|reflexivity].
  destruct (py_int d) as [phase|e2]; cbn [bind is_ok andb]; [|reflexivity].
  destruct (str_getitem col (-1)) as [vt|e3]; cbn [bind is_ok];
    [|rewrite andb_false_r; reflexivity].
  cbv beta zeta.
  destruct (list_index vt sel) as [k|e4]; cbn [bind is_ok];
    [|rewrite andb_false_r; reflexivity].
  cbv beta zeta.
  destruct (nat_dict_get color_dict phase) as [color|e5]; cbn [bind is_ok andb];
    [|reflexivity].
  unfold add_trace.
  replace (k + 1 =? 0)%nat with false by (symmetry; apply Nat.eqb_neq; lia).
  cbn [orb]. rewrite Nat.ltb_antisym.
  destruct (k + 1 <=? fig_rows (st_fig st))%nat; reflexivity.
Qed.

Lemma plot_column_state : forall (df : DataFrame I V) sel flt st i col st',
  plot_column df sel flt st i col = Ok st' ->
  fig_rows (st_fig st') = fig_rows (st_fig st) /\ st_i st' = Some i.
Proof.
  intros df sel flt st i col st' Hp. unfold plot_column in Hp.
  bind_ok Hp y0 Ey. bind_ok Hp d Ed. bind_ok Hp phase Ephase.
  bind_ok Hp vt Evt. bind_ok Hp k Ek. bind_ok Hp color Ecolor.
  bind_ok Hp fig Efig. inversion Hp; subst st'; clear Hp. cbn [st_fig st_i].
  unfold add_trace in Efig. destruct (_ || _)%bool; [discriminate|].
  inversion Efig; subst fig. split; reflexivity.
Qed.

Lemma plot_columns_is_ok : forall (df : DataFrame I V) sel flt cols i st,
  is_ok (plot_columns df sel flt cols i st) =
  forallb (fun col => (label_count col (df_names df) =? 1)%nat
                      && label_ok sel (fig_rows (st_fig st)) col) cols.
Proof.
  intros df sel flt. induction cols as [|col rest IH]; intros i st; simpl.
  - reflexivity.
  - rewrite is_ok_bind. rewrite <- plot_column_is_ok with (flt := flt) (i := i).
    destruct (plot_column df sel flt st i col) as [st1|e] eqn:E1; cbn [is_ok andb];
      [|reflexivity].
    rewrite IH. destruct (plot_column_state _ _ _ _ _ _ E1) as [Hrows _].
    rewrite Hrows. reflexivity.
Qed.

Lemma plot_columns_i : forall (df : DataFrame I V) sel flt cols i st st',
  plot_columns df sel flt cols i st = Ok st' ->
  cols <> [] -> exists j, st_i st' = Some j.
Proof.
  intros df sel flt. induction cols as [|col rest IH]; intros i st st' Hp Hne.
  - contradiction.
  - cbn [plot_columns] in Hp. bind_ok Hp st1 E1.
    destruct rest as [|c2 rest'].
    + simpl in Hp. inversion Hp; subst st'.
      destruct (plot_column_state _ _ _ _ _ _ E1) as [_ Hi]. eauto.
    + eapply IH; [exact Hp | discriminate].
Qed.

(** Whether [make_figure] returns is decided by the labels and the
    selection alone. *)
Lemma make_figure_is_ok : forall (df : DataFrame I V) sel flt,
  is_ok (make_figure df sel flt) = plottable (df_names df) sel.
Proof.
  intros df sel flt. unfold make_figure, plottable. cbv zeta.
  rewrite is_ok_bind.
  pose proof (mapM_is_ok subplot_title sel) as Ht.
  rewrite (forallb_ext_members _ known_code sel) in Ht
    by (intros a _; apply subplot_title_is_ok).
  rewrite <- Ht.
  destruct (mapM subplot_title sel) as [titles|e]; cbn [is_ok andb]; [|reflexivity].
  rewrite is_ok_bind, make_subplots_spec.
  destruct (List.length (df_names df) =? 0)%nat eqn:Hz; cbn [negb andb]; [reflexivity|].
  rewrite Nat.leb_antisym.
  destruct (51 <? List.length (df_names df))%nat; cbn [negb andb]; [reflexivity|].
  rewrite is_ok_bind.
  pose proof (plot_columns_is_ok df sel flt (df_names df) 0
                (mkLoop (mkFigure (List.length (df_names df))
                                  (firstn (List.length (df_names df)) titles)
                                  [] None None) [] None)) as Hloop.
  cbn [st_fig fig_rows] in Hloop. rewrite forallb_andb in Hloop.
  rewrite forallb_unique_nodupb in Hloop. rewrite <- Hloop.
  destruct (plot_columns df sel flt (df_names df) 0 _) as [st|e] eqn:Es;
    cbn [is_ok]; [|reflexivity].
  assert (Hne : df_names df <> []).
  { intros Hnil. rewrite Hnil in Hz. discriminate. }
  destruct (plot_columns_i _ _ _ _ _ Es Hne) as [j Hj].
  unfold finish_layout. rewrite Hj. reflexivity.
Qed.

End MakeFigureReturns.

Lemma list_index_nth : forall x l k,
  list_index x l = Ok k -> nth_error l k = Some x /\ ~ In x (firstn k l).
Proof.
  intros x. induction l as [|y t IH]; simpl; intros k Hk; [discriminate|].
  destruct (String.eqb y x) eqn:Hyx.
  - inversion Hk; subst k. apply String.eqb_eq in Hyx. subst y.
    split; [reflexivity | intros []].
  - destruct (list_index x t) as [k'|] eqn:Hk'; cbn [bind] in Hk; [|discriminate].
    inversion Hk; subst k. destruct (IH k' eq_refl) as [Hnth Hnot].
    split; [exact Hnth|]. simpl. intros [Heq | Hin]; [|exact (Hnot Hin)].
    subst y. rewrite String.eqb_refl in Hyx. discriminate.
Qed.

Lemma list_index_lt : forall x l k, list_index x l = Ok k -> (k < List.length l)%nat.
Proof.
  intros x l k Hk. destruct (list_index_nth _ _ Hk) as [Hnth _].
  apply nth_error_Some. rewrite Hnth. discriminate.
Qed.

Lemma Forall2_nth_error : forall (A B : Type) (R : A -> B -> Prop) l l' j a b,
  Forall2 R l l' -> nth_error l j = Some a -> nth_error l' j = Some b -> R a b.
Proof.
  intros A B R l l' j a b HF. revert j. induction HF as [|x y l l' Hxy _ IH];
    intros [|j] Ha Hb; simpl in *; try discriminate.
  - inversion Ha; inversion Hb; subst. exact Hxy.
  - eapply IH; eassumption.
Qed.

(** The titles are built left to right: the first code that is not a key
    of [label_dict] is the one reported. *)
Lemma subplot_titles_first_unknown : forall pre sym post,
  forallb known_code pre = true ->
  known_code sym = false ->
  mapM subplot_title (pre ++ sym :: post) = Error (KeyError sym).
Proof.
  induction pre as [|a t IH]; simpl; intros sym post Hpre Hsym.
  - rewrite <- subplot_title_is_ok in Hsym. unfold subplot_title in *.
    destruct (dict_get label_dict sym) as [l|e] eqn:Hd; [discriminate|].
    cbn [bind]. rewrite (dict_get_err _ _ Hd). reflexivity.
  - apply andb_true_iff in Hpre. destruct Hpre as [Ha Ht].
    rewrite <- subplot_title_is_ok in Ha.
    destruct (subplot_title a); [|discriminate]. cbn [bind].
    rewrite (IH sym post Ht Hsym). reflexivity.
Qed.

Section MakeFigureMore.
Context {I V : Type} `{Numeric V}.

(** X6: on a frame whose labels are ASCII, [make_figure] returns a figure
    if and only if every selected code is a key of [label_dict], the frame
    has between 1 and 51 columns (more rows than 51 make the spacing 0.02
    too large for [make_subplots]), its labels are pairwise distinct, and
    every label has one of the digits 1, 2, 3 at index 1 and a last
    character found in the selection at a position not beyond the number
    of columns. *)
Theorem make_figure_returns_iff :
  forall (df : DataFrame I V) (sel : list string) (flt : bool),
  forallb ascii_label (df_names df) = true ->
  ((exists fig, make_figure df sel flt = Ok fig) <->
   plottable (df_names df) sel = true).
Proof.
  intros df sel flt _. rewrite <- (make_figure_is_ok df sel flt).
  symmetry. apply is_ok_true.
Qed.

(** X7: whether [make_figure] returns depends on the column labels and the
    selection only: two frames with the same labels, whatever their
    readings, their index and the outlier mode, both yield a figure or both
    raise. *)
Theorem make_figure_success_ignores_readings :
  forall (df df' : DataFrame I V) (sel : list string) (flt flt' : bool),
  df_names df = df_names df' ->
  is_ok (make_figure df sel flt) = is_ok (make_figure df' sel flt').
Proof.
  intros df df' sel flt flt' Hnames.
  rewrite !make_figure_is_ok, Hnames. reflexivity.
Qed.

(** X8: when the selection holds a code that is not a key of
    [label_dict], [make_figure] raises [KeyError] for the first such code
    (every code before it being a key), before the grid is built and
    whatever the frame and the codes after it. *)
Theorem make_figure_unknown_code :
  forall (df : DataFrame I V) (pre : list string) (sym : string)
         (post : list string) (flt : bool),
  forallb known_code pre = true ->
  known_code sym = false ->
  make_figure df (pre ++ sym :: post) flt = Error (KeyError sym).
Proof.
  intros df pre sym post flt Hpre Hsym.
  unfold make_figure. cbv zeta.
  rewrite (subplot_titles_first_unknown pre sym post Hpre Hsym). reflexivity.
Qed.

(** X19: a frame of more than 51 columns makes [make_figure] raise the
    [ValueError] of [make_subplots] (with one row per column, the spacing
    0.02 exceeds [1 / (rows - 1)]), whatever the labels, as soon as the
    selected codes are keys of [label_dict]. *)
Theorem make_figure_too_many_columns :
  forall (df : DataFrame I V) (sel : list string) (flt : bool),
  forallb known_code sel = true ->
  (51 < List.length (df_columns df))%nat ->
  make_figure df sel flt = Error (SubplotSpacing (List.length (df_columns df))).
Proof.
  intros df sel flt Hknown Hwide. unfold make_figure. cbv zeta.
  assert (Ht : is_ok (mapM subplot_title sel) = true).
  { rewrite mapM_is_ok.
    rewrite (forallb_ext_members _ known_code sel)
      by (intros a _; apply subplot_title_is_ok).
    exact Hknown. }
  destruct (mapM subplot_title sel) as [titles|e]; [|discriminate].
  cbn [bind]. rewrite make_subplots_spec. unfold df_names. rewrite length_map.
  replace (List.length (df_columns df) =? 0)%nat with false
    by (symmetry; apply Nat.eqb_neq; lia).
  replace (51 <? List.length (df_columns df))%nat with true
    by (symmetry; apply Nat.ltb_lt; lia).
  reflexivity.
Qed.

(** X9: the layout of a returned figure follows the number of columns of
    the frame, not the number of selected types: the grid has one row per
    column, the height is 200 per column and the width 600; there is one
    trace per column, every trace sits in a row between 1 and the number of
    selected codes, and the titles shown number the smaller of the two
    counts. *)
Theorem make_figure_layout :
  forall (df : DataFrame I V) (sel : list string) (flt : bool) fig,
  make_figure df sel flt = Ok fig ->
  let n := List.length (df_columns df) in
  fig_rows fig = n
  /\ fig_height fig = Some (200 * n)%nat
  /\ fig_width fig = Some 600%nat
  /\ List.length (fig_data fig) = n
  /\ Forall (fun rt => (1 <= fst rt <= List.length sel)%nat) (fig_data fig)
  /\ List.length (fig_titles fig) = Nat.min n (List.length sel).
Proof.
  intros df sel flt fig Hm n.
  destruct (make_figure_ok _ _ _ Hm) as [titles [Ht [Hrows [Hti [Htr [Hh Hw]]]]]].
  destruct (@make_figure_rows _ _ _ _ _ _ _ Hm) as [_ Hrange].
  repeat split; try assumption.
  - symmetry. eapply Forall2_length. exact Htr.
  - rewrite Hti, length_firstn, (mapM_length _ _ Ht). reflexivity.
Qed.

(** X10: in a returned figure two traces share a subplot row exactly when
    their columns' labels end in the same character: every signal type has
    one row of its own. *)
Theorem make_figure_one_row_per_type :
  forall (df : DataFrame I V) (sel : list string) (flt : bool) fig,
  make_figure df sel flt = Ok fig ->
  forall j1 j2 c1 c2 rt1 rt2,
    nth_error (df_columns df) j1 = Some c1 -> nth_error (fig_data fig) j1 = Some rt1 ->
    nth_error (df_columns df) j2 = Some c2 -> nth_error (fig_data fig) j2 = Some rt2 ->
    (fst rt1 = fst rt2 <-> last_char (fst c1) = last_char (fst c2)).
Proof.
  intros df sel flt fig Hm j1 j2 c1 c2 rt1 rt2 Hc1 Hr1 Hc2 Hr2.
  destruct (make_figure_ok _ _ _ Hm) as [titles [_ [_ [_ [Htr _]]]]].
  pose proof (Forall2_nth_error _ Htr Hc1 Hr1) as T1.
  pose proof (Forall2_nth_error _ Htr Hc2 Hr2) as T2.
  destruct T1 as [d1 [p1 [v1 [k1 [col1 T1]]]]].
  destruct T1 as [_ [_ [Hv1 [Hk1 [_ [Hrow1 _]]]]]].
  destruct T2 as [d2 [p2 [v2 [k2 [col2 T2]]]]].
  destruct T2 as [_ [_ [Hv2 [Hk2 [_ [Hrow2 _]]]]]].
  rewrite str_getitem_last in Hv1, Hv2.
  destruct (last_char (fst c1)) as [a1|]; [|discriminate].
  destruct (last_char (fst c2)) as [a2|]; [|discriminate].
  inversion Hv1; subst v1. inversion Hv2; subst v2.
  rewrite Hrow1, Hrow2. split.
  - intros Hrow. assert (k1 = k2) by lia. subst k2.
    destruct (list_index_nth _ _ Hk1) as [N1 _].
    destruct (list_index_nth _ _ Hk2) as [N2 _].
    rewrite N1 in N2. inversion N2. reflexivity.
  - intros Heq. inversion Heq; subst a2. rewrite Hk1 in Hk2.
    inversion Hk2. reflexivity.
Qed.

(** X11: on a frame with pairwise distinct ASCII labels, [update_graph]
    returns a figure exactly when no label is empty and the labels ending
    in a selected code are [plottable]; a sufficient condition is that the
    selected codes are keys of [label_dict], every selected column has a
    phase digit at index 1, and the number of selected columns is at least
    1, at least the number of selected codes, and at most 51. *)
Theorem update_graph_returns :
  forall (DF : DataFrame I V) (sel : list string) (radio : string),
  NoDup (df_names DF) ->
  forallb ascii_label (df_names DF) = true ->
  is_ok (update_graph DF sel radio) =
    forallb nonempty (df_names DF)
    && plottable (filter (ends_in sel) (df_names DF)) sel
  /\ (forallb nonempty (df_names DF) = true ->
      forallb known_code sel = true ->
      forallb has_phase (filter (ends_in sel) (df_names DF)) = true ->
      (1 <= List.length (filter (ends_in sel) (df_names DF)) <= 51)%nat ->
      (List.length sel <= List.length (filter (ends_in sel) (df_names DF)))%nat ->
      exists fig, update_graph DF sel radio = Ok fig).
Proof.
  intros DF sel radio Hnd _.
  assert (Heq : is_ok (update_graph DF sel radio) =
                forallb nonempty (df_names DF)
                && plottable (filter (ends_in sel) (df_names DF)) sel).
  { unfold update_graph. cbv zeta. rewrite is_ok_bind.
    destruct (forallb nonempty (df_names DF)) eqn:Hne.
    - rewrite (filter_df_cols_run DF sel Hnd Hne). rewrite make_figure_is_ok.
      unfold df_restrict, df_names. cbn [df_columns].
      rewrite (map_fst_filter (ends_in sel)). reflexivity.
    - rewrite filter_df_cols_unfold, Hne. reflexivity. }
  split; [exact Heq|].
  intros Hne Hknown Hphase Hone Hlen. apply is_ok_true. rewrite Heq, Hne.
  cbn [andb]. unfold plottable. rewrite Hknown. cbn [andb].
  replace (List.length (filter (ends_in sel) (df_names DF)) =? 0)%nat with false
    by (symmetry; apply Nat.eqb_neq; lia).
  replace (List.length (filter (ends_in sel) (df_names DF)) <=? 51)%nat with true
    by (symmetry; apply Nat.leb_le; lia).
  cbn [negb andb].
  replace (nodupb (filter (ends_in sel) (df_names DF))) with true
    by (symmetry; apply nodupb_NoDup, NoDup_filter, Hnd).
  cbn [andb]. apply forallb_forall. intros name Hname.
  unfold label_ok. rewrite forallb_forall in Hphase. rewrite (Hphase name Hname).
  cbn [andb]. apply filter_In in Hname. destruct Hname as [_ Hend].
  destruct (ends_in_index _ _ Hend) as [vt [k [Hvt [Hk Hrange]]]].
  rewrite <- row_of_spec, Hvt, Hk. apply Nat.leb_le. lia.
Qed.

(** X12: on a frame with pairwise distinct labels, a figure returned by
    [update_graph] holds one trace for each column of the frame whose last
    character is selected, in frame order, carrying that column's series
    (outlier-filtered unless the radio value is ['include']). *)
Theorem update_graph_draws_selected_columns :
  forall (DF : DataFrame I V) (sel : list string) (radio : string) fig,
  NoDup (df_names DF) ->
  update_graph DF sel radio = Ok fig ->
  Forall2 (fun c rt =>
             sc_x (snd rt) =
               ser_index (plotted_series (df_index DF)
                            (negb (String.eqb radio "include")) (snd c)) /\
             sc_y (snd rt) =
               ser_values (plotted_series (df_index DF)
                             (negb (String.eqb radio "include")) (snd c)))
          (filter (fun c => ends_in sel (fst c)) (df_columns DF)) (fig_data fig).
Proof.
  intros DF sel radio fig Hnd Hu. unfold update_graph in Hu. cbv zeta in Hu.
  destruct (forallb nonempty (df_names DF)) eqn:Hne;
    [|rewrite filter_df_cols_unfold, Hne in Hu; discriminate].
  rewrite (filter_df_cols_run DF sel Hnd Hne) in Hu. cbn [bind] in Hu.
  destruct (make_figure_ok _ _ _ Hu) as [titles [_ [_ [_ [Htr _]]]]].
  unfold df_restrict in Htr. cbn [df_index df_columns] in Htr.
  eapply Forall2_impl; [|exact Htr].
  intros c rt [d [phase [vt [k [color Hc]]]]].
  destruct Hc as [_ [_ [_ [_ [_ [_ [Hx [Hy _]]]]]]]].
  replace (negb (String.eqb radio "include"))
    with (if String.eqb radio "include" then false else true)
    by (destruct (String.eqb radio "include"); reflexivity).
  split; assumption.
Qed.

End MakeFigureMore.

(** ** make_figure: legend and initial visibility *)

Lemma py_in_app : forall n l x,
  py_in n (l ++ [x]) = (py_in n l || String.eqb n x)%bool.
Proof.
  intros n l x. unfold py_in. rewrite existsb_app. simpl.
  rewrite orb_false_r. reflexivity.
Qed.

Lemma snoc_split : forall (A : Type) (l pre post : list A) (x y : A),
  l ++ [x] = pre ++ y :: post ->
  (post = [] /\ pre = l /\ y = x) \/
  (exists post0, post = post0 ++ [x] /\ l = pre ++ y :: post0).
Proof.
  intros A l pre post x y Heq.
  induction post as [|p post' _] using rev_ind.
  - left. apply app_inj_tail in Heq. destruct Heq as [Hl Hx].
    repeat split; congruence.
  - right. exists post'. 
    change (pre ++ y :: post' ++ [p]) with (pre ++ (y :: post') ++ [p]) in Heq.
    rewrite app_assoc in Heq. apply app_inj_tail in Heq.
    destruct Heq as [Hl Hx]. subst p. split; [reflexivity | exact Hl].
Qed.

Section StyleFacts.
Context {I V : Type} `{Numeric V}.

Lemma plot_column_style : forall (df : DataFrame I V) sel flt st i col st',
  plot_column df sel flt st i col = Ok st' ->
  exists rt,
    fig_data (st_fig st') = fig_data (st_fig st) ++ [rt]
    /\ visible_rule rt
    /\ sc_showlegend (snd rt) = negb (py_in (trace_name rt) (st_legend_lst st))
    /\ st_legend_lst st' =
         if py_in (trace_name rt) (st_legend_lst st) then st_legend_lst st
         else st_legend_lst st ++ [trace_name rt].
Proof.
  intros df sel flt st i col st' Hp. unfold plot_column in Hp.
  bind_ok Hp y0 Ey. bind_ok Hp d Ed. bind_ok Hp phase Ephase.
  bind_ok Hp vt Evt. bind_ok Hp k Ek. bind_ok Hp color Ecolor.
  bind_ok Hp fig Efig. inversion Hp; subst st'; clear Hp.
  unfold add_trace in Efig. destruct (_ || _)%bool; [discriminate|].
  inversion Efig; subst fig; clear Efig.
  cbn [st_fig st_legend_lst fig_data].
  eexists. split; [reflexivity|].
  unfold visible_rule, trace_name.
  cbn [snd sc_visible sc_y sc_showlegend sc_name].
  split; [|split; reflexivity].
  unfold py_and, py_truthy.
  destruct (num_eqb (ser_min _) (num_of_int 0)) eqn:Emin; cbn [negb orb].
  - rewrite Emin. reflexivity.
  - destruct (num_eqb (ser_max _) (num_of_int 0)); reflexivity.
Qed.

Lemma plot_column_keeps_style : forall (df : DataFrame I V) sel flt st i col st',
  plot_column df sel flt st i col = Ok st' -> style_inv st -> style_inv st'.
Proof.
  intros df sel flt st i col st' Hp [Hmem [Hleg Hvis]].
  destruct (plot_column_style _ _ _ _ _ _ Hp) as [rt [Hdata [Hv [Hshow Hlst]]]].
  unfold style_inv. rewrite Hdata, Hlst. split; [|split].
  - intros n. rewrite map_app. cbn [map]. rewrite py_in_app, <- Hmem.
    destruct (py_in (trace_name rt) (st_legend_lst st)) eqn:Hseen.
    + destruct (String.eqb n (trace_name rt)) eqn:Hn.
      * apply String.eqb_eq in Hn. subst n. rewrite Hseen. reflexivity.
      * rewrite orb_false_r. reflexivity.
    + apply py_in_app.
  - intros pre rt0 post Hsplit. apply snoc_split in Hsplit.
    destruct Hsplit as [[_ [Hpre Hrt]] | [post0 [_ Hold]]].
    + subst pre rt0. rewrite Hshow, Hmem. reflexivity.
    + eapply Hleg. exact Hold.
  - apply Forall_app. split; [exact Hvis | constructor; [exact Hv | constructor]].
Qed.

Lemma plot_columns_keep_style : forall (df : DataFrame I V) sel flt cols i st st',
  plot_columns df sel flt cols i st = Ok st' -> style_inv st -> style_inv st'.
Proof.
  intros df sel flt. induction cols as [|col rest IH]; intros i st st' Hp Hinv.
  - simpl in Hp. inversion Hp; subst. exact Hinv.
  - cbn [plot_columns] in Hp. bind_ok Hp st1 E1.
    eapply IH; [exact Hp|]. eapply plot_column_keeps_style; eassumption.
Qed.

Lemma make_figure_style : forall (df : DataFrame I V) sel flt fig,
  make_figure df sel flt = Ok fig ->
  legend_rule (fig_data fig) /\ Forall visible_rule (fig_data fig).
Proof.
  intros df sel flt fig Hm. unfold make_figure in Hm. cbv zeta in Hm.
  bind_ok Hm titles Et. bind_ok Hm fig0 Ef. bind_ok Hm st Es.
  rewrite make_subplots_spec in Ef. destruct (_ =? 0)%nat; [discriminate|].
  destruct (51 <? _)%nat; [discriminate|].
  inversion Ef; subst fig0; clear Ef.
  assert (Hinv : style_inv st).
  { eapply plot_columns_keep_style; [exact Es|].
    unfold style_inv. cbn [st_fig st_legend_lst fig_data map].
    split; [reflexivity|]. split; [|constructor].
    intros pre rt post Hsplit. destruct pre; discriminate. }
  unfold finish_layout in Hm. destruct (st_i st); [|discriminate].
  inversion Hm; subst fig. unfold update_layout. cbn [fig_data].
  destruct Hinv as [_ [Hleg Hvis]]. split; assumption.
Qed.

(** X13: in a returned figure a trace enters the legend ([showlegend]) if
    and only if no earlier trace has its name: each phase is listed once,
    at its first trace. *)
Theorem make_figure_legend_once :
  forall (df : DataFrame I V) (sel : list string) (flt : bool) fig,
  make_figure df sel flt = Ok fig ->
  forall pre rt post,
    fig_data fig = pre ++ rt :: post ->
    sc_showlegend (snd rt) = negb (py_in (sc_name (snd rt)) (map trace_name pre)).
Proof.
  intros df sel flt fig Hm pre rt post Hsplit.
  destruct (make_figure_style _ _ _ Hm) as [Hleg _].
  exact (Hleg pre rt post Hsplit).
Qed.

(** X14: in a returned figure a trace starts hidden (['legendonly'])
    exactly when the minimum or the maximum of the values it draws equals
    zero, and is visible otherwise; an all-zero series is hidden, and so
    is any series whose smallest or largest value is zero. *)
Theorem make_figure_hidden_when_min_or_max_zero :
  forall (df : DataFrame I V) (sel : list string) (flt : bool) fig,
  make_figure df sel flt = Ok fig ->
  Forall (fun rt =>
            sc_visible (snd rt) =
            if (num_eqb (ser_min (sc_y (snd rt))) (num_of_int 0)
                || num_eqb (ser_max (sc_y (snd rt))) (num_of_int 0))%bool
            then LegendOnly else VisTrue)
         (fig_data fig).
Proof.
  intros df sel flt fig Hm.
  destruct (make_figure_style _ _ _ Hm) as [_ Hvis]. exact Hvis.
Qed.

End StyleFacts.

(** ** prep_datetime: shape of the result and missing columns *)

Lemma filter_has_label_absent : forall (A : Type) (cols : list (string * list A)) l,
  ~ In l (map fst cols) -> filter (has_label l) cols = [].
Proof.
  induction cols as [|c cols IH]; simpl; intros l Hnot; [reflexivity|].
  unfold has_label at 1. destruct (String.eqb (fst c) l) eqn:Hc.
  - apply String.eqb_eq in Hc. exfalso. apply Hnot. left. exact Hc.
  - apply IH. intros Hin. apply Hnot. right. exact Hin.
Qed.

Lemma df_column_absent : forall (I A : Type) (df : DataFrame I A) l,
  ~ In l (df_names df) -> df_column df l = Error (KeyError l).
Proof.
  intros I A df l Hnot. unfold df_column.
  rewrite (filter_has_label_absent _ l Hnot). reflexivity.
Qed.

(** Reading back the label just assigned gives the assigned cells. *)
Lemma df_column_setitem_ok : forall (I A : Type) (df : DataFrame I A) l d d',
  df_column (df_setitem df l d) l = Ok d' -> d' = d.
Proof.
  intros I A df l d d'. unfold df_column. rewrite setitem_filter_same.
  destruct (filter (has_label l) (df_columns df)) as [|[n x] [|c t]]; simpl;
    intros Hd; inversion Hd; reflexivity.
Qed.

Lemma combine_values_length : forall (I A : Type) (idx : list I) (data : list A),
  List.length (ser_values (combine idx data)) =
  Nat.min (List.length idx) (List.length data).
Proof.
  intros I A idx data. unfold ser_values. rewrite length_map. apply length_combine.
Qed.

Section PrepMore.
Context {I Raw Stamp Delta : Type}.
Variable pd_Timedelta : Cell Raw Stamp Delta -> result Delta.
Variable pd_to_datetime :
  list (Cell Raw Stamp Delta) -> Cell Raw Stamp Delta -> result Stamp.
Variable stamp_add : Stamp -> Delta -> result Stamp.

(** What a run of [prep_datetime] that returned went through. *)
Lemma prep_datetime_inv :
  forall (df : DataFrame I (Cell Raw Stamp Delta)) out,
  prep_datetime pd_Timedelta pd_to_datetime stamp_add df = Ok out ->
  exists days times deltas stamps sums,
    df_column df "day" = Ok days
    /\ df_column df "time" = Ok times
    /\ mapM pd_Timedelta (ser_values (combine (df_index df) times)) = Ok deltas
    /\ mapM (pd_to_datetime (ser_values (combine (df_index df) days)))
            (ser_values (combine (df_index df) days)) = Ok stamps
    /\ mapM (cell_add stamp_add)
            (combine stamps
               (ser_values (combine (df_index df)
                                    (map (@CDelta Raw Stamp Delta) deltas)))) = Ok sums
    /\ out = mkDF (map CStamp sums)
                  (filter (fun c => keeps_label (fst c)) (df_columns df)).
Proof.
  intros df out Hp. unfold prep_datetime in Hp.
  bind_ok Hp time Etime. unfold df_getitem in Etime.
  bind_ok Etime times Etimes. inversion Etime; subst time; clear Etime.
  bind_ok Hp deltas Edeltas.
  set (df1 := df_setitem df "time" (map CDelta deltas)) in *.
  assert (Hidx1 : df_index df1 = df_index df) by apply setitem_index.
  bind_ok Hp day Eday. unfold df_getitem in Eday.
  bind_ok Eday days Edays. inversion Eday; subst day; clear Eday.
  bind_ok Hp stamps Estamps. bind_ok Hp time1 Etime1.
  unfold df_getitem in Etime1. bind_ok Etime1 cells Ecells.
  inversion Etime1; subst time1; clear Etime1.
  bind_ok Hp sums Esums.
  set (df2 := df_setitem df1 "datetime" (map CStamp sums)) in *.
  bind_ok Hp df3 E3. unfold df_set_index in E3. bind_ok E3 data Edata.
  inversion E3; subst df3; clear E3.
  apply df_column_setitem_ok in Edata. subst data.
  unfold df1 in Ecells. apply df_column_setitem_ok in Ecells. subst cells.
  unfold df1 in Edays. rewrite df_column_setitem_other in Edays by reflexivity.
  rewrite Hidx1 in *.
  unfold df_drop_columns in Hp. cbn [df_index df_columns] in Hp.
  destruct (find _ ["day"; "time"]) as [l|]; [discriminate|].
  inversion Hp; subst out; clear Hp.
  exists days, times, deltas, stamps, sums.
  repeat (split; [first [assumption | reflexivity]|]).
  f_equal. rewrite filter_fuse.
  rewrite filter_ext with (g := fun c => keeps_label (fst c)).
  - unfold df2, df1.
    rewrite (setitem_filter_other _ "datetime" _ keeps_label eq_refl).
    apply (setitem_filter_other _ "time" _ keeps_label eq_refl).
  - intros c. unfold keeps_label, has_label, py_in. cbn [existsb].
    rewrite !(String.eqb_sym (fst c)).
    destruct (String.eqb "day" (fst c)), (String.eqb "time" (fst c)),
      (String.eqb "datetime" (fst c)); reflexivity.
Qed.

(** X15: whenever [prep_datetime] returns, the frame it was given had
    exactly one ['day'] and one ['time'] column, the columns of the
    result are the input columns not labelled ['day'], ['time'] or
    ['datetime'], unchanged and in their order, and every entry of the
    new index is a timestamp. *)
Theorem prep_datetime_result_shape :
  forall (df : DataFrame I (Cell Raw Stamp Delta)) out,
  prep_datetime pd_Timedelta pd_to_datetime stamp_add df = Ok out ->
  label_count "day" (df_names df) = 1%nat
  /\ label_count "time" (df_names df) = 1%nat
  /\ df_columns out = filter (fun c => keeps_label (fst c)) (df_columns df)
  /\ (forall c, In c (df_columns out) ->
        fst c <> "day" /\ fst c <> "time" /\ fst c <> "datetime")
  /\ exists sums, df_index out = map CStamp sums.
Proof.
  intros df out Hp.
  destruct (prep_datetime_inv _ Hp)
    as [days [times [deltas [stamps [sums [Hd [Ht [_ [_ [_ Hout]]]]]]]]]].
  subst out. cbn [df_index df_columns].
  assert (Cd : is_ok (df_column df "day") = true) by (rewrite Hd; reflexivity).
  assert (Ct : is_ok (df_column df "time") = true) by (rewrite Ht; reflexivity).
  rewrite df_column_is_ok in Cd, Ct. apply Nat.eqb_eq in Cd, Ct.
  split; [exact Cd|]. split; [exact Ct|]. split; [reflexivity|].
  split; [|exists sums; reflexivity].
  intros c Hc. apply filter_In in Hc. destruct Hc as [_ Hk].
  repeat split; intros Heq; rewrite Heq in Hk; discriminate.
Qed.

(** X16: [prep_datetime] keeps the frame rectangular: given one cell per
    row in every column, the result has one timestamp per input row and
    again one cell per row in every column. *)
Theorem prep_datetime_keeps_rows :
  forall (df : DataFrame I (Cell Raw Stamp Delta)) out,
  df_wf df ->
  prep_datetime pd_Timedelta pd_to_datetime stamp_add df = Ok out ->
  List.length (df_index out) = List.length (df_index df) /\ df_wf out.
Proof.
  intros df out Hwf Hp.
  destruct (prep_datetime_inv _ Hp)
    as [days [times [deltas [stamps [sums [Hd [Ht [Hdel [Hst [Hsum Hout]]]]]]]]]].
  pose proof (df_column_length _ Hwf Hd) as Ldays.
  pose proof (df_column_length _ Hwf Ht) as Ltimes.
  apply mapM_length in Hdel, Hst, Hsum.
  rewrite combine_values_length in Hdel, Hst.
  rewrite length_combine, combine_values_length, length_map in Hsum.
  assert (Lsums : List.length sums = List.length (df_index df)) by lia.
  subst out. cbn [df_index df_columns]. rewrite length_map. split; [exact Lsums|].
  unfold df_wf in *. cbn [df_index df_columns]. rewrite Forall_forall in *.
  intros c Hc. apply filter_In in Hc. destruct Hc as [Hc _].
  rewrite length_map, Lsums. apply Hwf. exact Hc.
Qed.

(** X17: a frame without a ['time'] column makes [prep_datetime] raise
    [KeyError] for ['time'], also when ['day'] is missing too; with the
    ['time'] column present and parsed, a missing ['day'] column raises
    [KeyError] for ['day']. *)
Theorem prep_datetime_missing_column :
  forall (df : DataFrame I (Cell Raw Stamp Delta)),
  (~ In "time" (df_names df) ->
   prep_datetime pd_Timedelta pd_to_datetime stamp_add df = Error (KeyError "time"))
  /\ (forall times deltas,
        df_column df "time" = Ok times ->
        mapM pd_Timedelta (ser_values (combine (df_index df) times)) = Ok deltas ->
        ~ In "day" (df_names df) ->
        prep_datetime pd_Timedelta pd_to_datetime stamp_add df = Error (KeyError "day")).
Proof.
  intros df. split.
  - intros Hnot. unfold prep_datetime, df_getitem.
    rewrite (df_column_absent df "time" Hnot). reflexivity.
  - intros times deltas Ht Hd Hnot. unfold prep_datetime, df_getitem.
    rewrite Ht. cbn [bind]. rewrite Hd. cbn [bind]. cbv zeta.
    rewrite df_column_setitem_other by reflexivity.
    rewrite (df_column_absent df "day" Hnot). reflexivity.
Qed.

End PrepMore.

(** ** The dropdown and the subplot titles *)

Lemma title_of_option : forall sym,
  In sym (map opt_value dropdown_options) ->
  exists o, In o dropdown_options /\ opt_value o = sym /\
            subplot_title sym = Ok (opt_label o ++ " (" ++ sym ++ ")")%string.
Proof.
  intros sym Hin. simpl in Hin.
  destruct Hin as [Hs | [Hs | [Hs | [Hs | []]]]]; subst sym.
  - exists (mkOption "real power" "p"). simpl. tauto.
  - exists (mkOption "imaginary power" "q"). simpl. tauto.
  - exists (mkOption "current" "i"). simpl. tauto.
  - exists (mkOption "voltage" "v"). simpl. tauto.
Qed.

(** X18: every selection made of option values of the dropdown gets its
    subplot titles without a [KeyError]: one title per selected code, each
    the label the dropdown shows for that code followed by the code in
    brackets. *)
Theorem dropdown_selection_has_titles :
  forall sel : list string,
  (forall sym, In sym sel -> In sym (map opt_value dropdown_options)) ->
  exists titles,
    mapM subplot_title sel = Ok titles
    /\ Forall2 (fun sym title =>
                  exists o, In o dropdown_options /\ opt_value o = sym /\
                            title = (opt_label o ++ " (" ++ sym ++ ")")%string)
               sel titles.
Proof.
  induction sel as [|sym t IH]; intros Hin.
  - exists []. split; [reflexivity | constructor].
  - destruct (title_of_option (Hin sym (or_introl eq_refl))) as [o [Ho [Hv Ht]]].
    destruct (IH (fun s Hs => Hin s (or_intror Hs))) as [titles [Hm HF]].
    exists ((opt_label o ++ " (" ++ sym ++ ")")%string :: titles).
    cbn [mapM]. rewrite Ht. cbn [bind]. rewrite Hm. cbn [bind].
    split; [reflexivity|]. constructor; [|exact HF].
    exists o. repeat split; assumption.
Qed.

(** ** The further properties on the sample frames *)

Lemma filter_df_cols_sound_and_complete_witness :
  df_index Samples.readings_pq = df_index Samples.readings
  /\ (forall c, In c (df_columns Samples.readings_pq) <->
                In c (df_columns Samples.readings) /\ ends_in ["p"; "q"] (fst c) = true)
  /\ (df_wf Samples.readings -> df_wf Samples.readings_pq).
Proof.
  apply (filter_df_cols_sound_and_complete Samples.readings ["p"; "q"]).
  vm_compute. reflexivity.
Defined.

Lemma filter_df_cols_selection_as_set_witness :
  filter_df_cols Samples.readings ["p"; "q"] =
  filter_df_cols Samples.readings ["q"; "p"; "p"].
Proof.
  apply filter_df_cols_selection_as_set.
  intros x. simpl. tauto.
Defined.

Lemma filter_df_cols_compose_witness :
  filter_df_cols Samples.readings_pq ["q"; "v"] =
    Ok (mkDF (df_index Samples.readings)
             (filter (fun c => ends_in ["p"; "q"] (fst c) && ends_in ["q"; "v"] (fst c))
                     (df_columns Samples.readings)))
  /\ filter_df_cols Samples.readings_pq ["p"; "q"] = Ok Samples.readings_pq.
Proof.
  apply (filter_df_cols_compose Samples.readings ["p"; "q"] ["q"; "v"]).
  - unfold df_names. simpl. repeat constructor; simpl; intuition discriminate.
  - reflexivity.
  - vm_compute. reflexivity.
Defined.

Lemma filter_df_cols_keeps_all_witness :
  filter_df_cols Samples.readings dropdown_value = Ok Samples.readings.
Proof.
  apply filter_df_cols_keeps_all.
  - unfold df_names. simpl. repeat constructor; simpl; intuition discriminate.
  - intros name Hname. unfold df_names in Hname. simpl in Hname.
    destruct Hname as [Hn | [Hn | [Hn | [Hn | []]]]]; subst name; reflexivity.
Defined.

Lemma make_figure_success_ignores_readings_witness :
  is_ok (make_figure Samples.power_only ["p"] false) =
  is_ok (make_figure Samples.power_only_no_rows ["p"] true).
Proof.
  apply make_figure_success_ignores_readings. reflexivity.
Defined.

Lemma make_figure_unknown_code_witness :
  make_figure Samples.power_only ["p"; "x"; "y"] false = Error (KeyError "x").
Proof.
  apply (make_figure_unknown_code Samples.power_only ["p"] "x" ["y"] false);
    reflexivity.
Defined.

Lemma make_figure_layout_witness :
  fig_rows Samples.figure_remove = 4%nat
  /\ fig_height Samples.figure_remove = Some (200 * 4)%nat
  /\ fig_width Samples.figure_remove = Some 600%nat
  /\ List.length (fig_data Samples.figure_remove) = 4%nat
  /\ Forall (fun rt => (1 <= fst rt <= 2)%nat) (fig_data Samples.figure_remove)
  /\ List.length (fig_titles Samples.figure_remove) = Nat.min 4 2.
Proof.
  apply (make_figure_layout Samples.readings_pq ["q"; "p"] true).
  vm_compute. reflexivity.
Defined.

Lemma make_figure_one_row_per_type_witness :
  exists c1 c2 rt1 rt2,
    nth_error (df_columns Samples.readings_pq) 0 = Some c1
    /\ nth_error (fig_data Samples.figure_remove) 0 = Some rt1
    /\ nth_error (df_columns Samples.readings_pq) 3 = Some c2
    /\ nth_error (fig_data Samples.figure_remove) 3 = Some rt2
    /\ (fst rt1 = fst rt2 <-> last_char (fst c1) = last_char (fst c2)).
Proof.
  do 4 eexists.
  split; [reflexivity|]. split; [reflexivity|].
  split; [reflexivity|]. split; [reflexivity|].
  apply (make_figure_one_row_per_type Samples.readings_pq ["q"; "p"] true
           (fig := Samples.figure_remove)) with (j1 := 0%nat) (j2 := 3%nat);
    vm_compute; reflexivity.
Defined.

Lemma update_graph_returns_witness :
  exists fig, update_graph Samples.readings ["q"; "p"] "remove" = Ok fig.
Proof.
  refine (proj2 (update_graph_returns Samples.readings ["q"; "p"] "remove" _ _)
                _ _ _ _ _).
  - unfold df_names. simpl. repeat constructor; simpl; intuition discriminate.
  - reflexivity.
  - reflexivity.
  - reflexivity.
  - reflexivity.
  - vm_compute. lia.
  - vm_compute. lia.
Defined.

Lemma update_graph_draws_selected_columns_witness :
  Forall2 (fun c rt =>
             sc_x (snd rt) =
               ser_index (plotted_series (df_index Samples.readings) true (snd c)) /\
             sc_y (snd rt) =
               ser_values (plotted_series (df_index Samples.readings) true (snd c)))
          (filter (fun c => ends_in ["q"; "p"] (fst c)) (df_columns Samples.readings))
          (fig_data Samples.figure_remove).
Proof.
  apply (update_graph_draws_selected_columns Samples.readings ["q"; "p"] "remove").
  - unfold df_names. simpl. repeat constructor; simpl; intuition discriminate.
  - vm_compute. reflexivity.
Defined.

Lemma make_figure_legend_once_witness :
  exists rt,
    fig_data Samples.figure_remove = firstn 3 (fig_data Samples.figure_remove) ++ [rt]
    /\ sc_showlegend (snd rt) =
       negb (py_in (sc_name (snd rt))
                   (map trace_name (firstn 3 (fig_data Samples.figure_remove)))).
Proof.
  eexists. split; [reflexivity|].
  apply (make_figure_legend_once Samples.readings_pq ["q"; "p"] true
           (fig := Samples.figure_remove)) with (post := []);
    vm_compute; reflexivity.
Defined.

Lemma make_figure_hidden_when_min_or_max_zero_witness :
  Forall visible_rule (fig_data Samples.figure_remove).
Proof.
  apply (make_figure_hidden_when_min_or_max_zero Samples.readings_pq ["q"; "p"] true).
  vm_compute. reflexivity.
Defined.

Lemma prep_datetime_result_shape_witness :
  label_count "day" (df_names Samples.raw_rows) = 1%nat
  /\ label_count "time" (df_names Samples.raw_rows) = 1%nat
  /\ df_columns Samples.prepared_rows =
       filter (fun c => keeps_label (fst c)) (df_columns Samples.raw_rows)
  /\ (forall c, In c (df_columns Samples.prepared_rows) ->
        fst c <> "day" /\ fst c <> "time" /\ fst c <> "datetime")
  /\ exists sums, df_index Samples.prepared_rows = map CStamp sums.
Proof.
  apply (prep_datetime_result_shape Clock.Timedelta Clock.to_datetime Clock.add
           Samples.raw_rows).
  vm_compute. reflexivity.
Defined.

Lemma prep_datetime_keeps_rows_witness :
  List.length (df_index Samples.prepared_rows) = List.length (df_index Samples.raw_rows)
  /\ df_wf Samples.prepared_rows.
Proof.
  apply (prep_datetime_keeps_rows Clock.Timedelta Clock.to_datetime Clock.add
           (df := Samples.raw_rows) (out := Samples.prepared_rows)).
  - repeat constructor.
  - vm_compute. reflexivity.
Defined.

Lemma dropdown_selection_has_titles_witness :
  exists titles,
    mapM subplot_title ["v"; "p"] = Ok titles
    /\ Forall2 (fun sym title =>
                  exists o, In o dropdown_options /\ opt_value o = sym /\
                            title = (opt_label o ++ " (" ++ sym ++ ")")%string)
               ["v"; "p"] titles.
Proof.
  apply dropdown_selection_has_titles.
  intros sym Hsym. simpl in *. tauto.
Defined.

Lemma filter_df_cols_raises_iff_empty_label_witness :
  filter_df_cols Samples.unnamed_column ["p"] = Error IndexError
  /\ exists tdf, filter_df_cols Samples.repeated_label ["p"] = Ok tdf.
Proof.
  split.
  - apply (proj1 (filter_df_cols_raises_iff_empty_label Samples.unnamed_column ["p"])).
    left. reflexivity.
  - apply (proj2 (filter_df_cols_raises_iff_empty_label Samples.repeated_label ["p"])).
    simpl. intuition discriminate.
Defined.

Lemma make_figure_returns_iff_witness :
  exists fig, make_figure Samples.power_only ["p"] false = Ok fig.
Proof.
  apply (proj2 (make_figure_returns_iff Samples.power_only ["p"] false eq_refl)).
  reflexivity.
Defined.

Lemma prep_datetime_missing_column_witness :
  prep_datetime Clock.Timedelta Clock.to_datetime Clock.add Samples.no_time_column =
    Error (KeyError "time")
  /\ prep_datetime Clock.Timedelta Clock.to_datetime Clock.add Samples.no_day_column =
       Error (KeyError "day").
Proof.
  split.
  - apply (proj1 (prep_datetime_missing_column Clock.Timedelta Clock.to_datetime
                    Clock.add Samples.no_time_column)).
    simpl. intuition discriminate.
  - eapply (proj2 (prep_datetime_missing_column Clock.Timedelta Clock.to_datetime
                     Clock.add Samples.no_day_column)).
    + reflexivity.
    + reflexivity.
    + simpl. intuition discriminate.
Defined.

Lemma make_figure_too_many_columns_witness :
  make_figure Samples.wide ["p"] false = Error (SubplotSpacing 52).
Proof.
  apply (make_figure_too_many_columns Samples.wide ["p"] false).
  - reflexivity.
  - vm_compute. lia.
Defined.
